(** * Dynamic travel model: context inference, relevance scoring, ranking

    A shallow embedding of [src/main.py] (class [DynamicTravelModel] and the
    ranking pipeline around it) together with the properties of its
    specification.

    Conventions of the embedding.
    - Text is a [string] whose characters stand for the code points 0..255;
      the character classes below are the ones Python's [str] methods and
      the [re] module use on that range.  Text with code points above 255
      is outside the model.
    - Python [int] is [Z]; Python [float] is idealised as an exact rational
      [Q], so scores are compared with [==], [<=] on [Q].
    - A [dict] is an insertion-ordered association list with unique keys.
    - A call that may raise returns an [option] or a dedicated outcome type. *)

From Stdlib Require Import Bool List ZArith QArith Lia Ascii String.
From Stdlib Require Import DecimalString Permutation Sorted Lqa.
Import ListNotations.

Open Scope string_scope.
Open Scope list_scope.

(** ** Characters and the [str] methods used by the program *)

Module Text.

Definition code (c : ascii) : N := N_of_ascii c.

Definition in_range (lo hi : N) (c : ascii) : bool :=
  ((lo <=? code c) && (code c <=? hi))%N.

Definition is_code (n : N) (c : ascii) : bool := (code c =? n)%N.

Definition is_ascii_upper (c : ascii) : bool := in_range 65 90 c.
Definition is_ascii_lower (c : ascii) : bool := in_range 97 122 c.

(** The class [[a-zA-Z]]. *)
Definition is_ascii_letter (c : ascii) : bool :=
  is_ascii_lower c || is_ascii_upper c.

(** The class [\d]: on code points 0..255 only the ten ASCII digits. *)
Definition is_digit (c : ascii) : bool := in_range 48 57 c.

(** [str.isdigit] on one character: also the superscript digits. *)
Definition is_unicode_digit (c : ascii) : bool :=
  is_digit c || in_range 178 179 c || is_code 185 c.

(** The class [\s], also what [str.strip] and [str.split] remove. *)
Definition is_space (c : ascii) : bool :=
  in_range 9 13 c || in_range 28 32 c || is_code 133 c || is_code 160 c.

(** The class [\w]: alphanumeric code points and the underscore. *)
Definition is_word (c : ascii) : bool :=
  is_digit c || is_ascii_letter c || is_code 95 c
  || is_code 170 c || in_range 178 179 c || is_code 181 c
  || in_range 185 186 c || in_range 188 190 c
  || in_range 192 214 c || in_range 216 246 c || in_range 248 255 c.

Definition lower_char (c : ascii) : ascii :=
  if is_ascii_upper c || in_range 192 214 c || in_range 216 222 c
  then ascii_of_N (code c + 32)
  else c.

(** [s.lower()] *)
Fixpoint lower (s : string) : string :=
  match s with
  | EmptyString => EmptyString
  | String c t => String (lower_char c) (lower t)
  end.

(** [not s] for a string. *)
Definition is_empty (s : string) : bool :=
  match s with
  | EmptyString => true
  | String _ _ => false
  end.

(** [needle in hay] *)
Fixpoint occurs_in (needle hay : string) : bool :=
  prefix needle hay
  || match hay with
     | EmptyString => false
     | String _ t => occurs_in needle t
     end.

(** [any(word in text for word in words)] *)
Definition any_in (words : list string) (text : string) : bool :=
  existsb (fun word => occurs_in word text) words.

(** Longest prefix of [s] made of characters in the class [p], and the rest. *)
Fixpoint span (p : ascii -> bool) (s : string) : string * string :=
  match s with
  | EmptyString => (EmptyString, EmptyString)
  | String c t =>
      if p c then let (a, b) := span p t in (String c a, b)
      else (EmptyString, s)
  end.

Definition head (s : string) : option ascii :=
  match s with
  | EmptyString => None
  | String c _ => Some c
  end.

Fixpoint last (s : string) : option ascii :=
  match s with
  | EmptyString => None
  | String c EmptyString => Some c
  | String _ t => last t
  end.

Fixpoint rev (s : string) : string :=
  match s with
  | EmptyString => EmptyString
  | String c t => rev t ++ String c EmptyString
  end.

Definition lstrip (s : string) : string := snd (span is_space s).

(** [s.strip()] *)
Definition strip (s : string) : string := rev (lstrip (rev (lstrip s))).

(** [s.split()]: the maximal runs of non-whitespace characters.  [cur] is
    the run being read, in reverse. *)
Fixpoint split_from (cur : string) (s : string) : list string :=
  match s with
  | EmptyString => if is_empty cur then [] else [rev cur]
  | String c t =>
      if is_space c
      then (if is_empty cur then split_from EmptyString t
            else rev cur :: split_from EmptyString t)
      else split_from (String c cur) t
  end.

Definition split (s : string) : list string := split_from EmptyString s.

(** [sep.join(parts)] *)
Fixpoint join (sep : string) (parts : list string) : string :=
  match parts with
  | [] => EmptyString
  | [p] => p
  | p :: rest => p ++ sep ++ join sep rest
  end.

Fixpoint forallb_str (p : ascii -> bool) (s : string) : bool :=
  match s with
  | EmptyString => true
  | String c t => p c && forallb_str p t
  end.

(** [s.isdigit()] *)
Definition isdigit (s : string) : bool :=
  negb (is_empty s) && forallb_str is_unicode_digit s.

(** [s.replace(a, b)] for single characters [a], [b]. *)
Fixpoint replace_char (a b : ascii) (s : string) : string :=
  match s with
  | EmptyString => EmptyString
  | String c t =>
      String (if Ascii.eqb c a then b else c) (replace_char a b t)
  end.

Definition digit_value (c : ascii) : Z := Z.of_N (code c) - 48.

Fixpoint int_of_digits_from (acc : Z) (s : string) : Z :=
  match s with
  | EmptyString => acc
  | String c t => int_of_digits_from (10 * acc + digit_value c)%Z t
  end.

(** [int(s)] for a string of ASCII digits. *)
Definition int_of_digits (s : string) : Z := int_of_digits_from 0%Z s.

(** [str(n)] for an integer. *)
Definition str_of_int (n : Z) : string := NilZero.string_of_int (Z.to_int n).

End Text.

(** ** The regular expressions of the program

    Each pattern the program hands to [re] is embedded as the scanner that
    pattern denotes.  All quantifiers in these patterns are greedy and are
    followed by something that cannot start inside the quantified class, so
    backtracking never finds a match that the greedy attempt misses. *)

Module Re.
Import Text.

Definition is_word_opt (c : option ascii) : bool :=
  match c with
  | Some c => is_word c
  | None => false
  end.

(** [\b] between the characters [prev] and [next] ([None] at either end of
    the text). *)
Definition at_boundary (prev next : option ascii) : bool :=
  xorb (is_word_opt prev) (is_word_opt next).

(** A run of at least [min] characters of class [cls] with [\b] on both
    sides, tried at one position: [\b cls{min,} \b]. *)
Definition match_bounded_run (cls : ascii -> bool) (min : nat)
    (prev : option ascii) (s : string) : option string :=
  let (run, rest) := span cls s in
  if (min <=? String.length run)%nat
     && at_boundary prev (head s)
     && at_boundary (last run) (head rest)
  then Some run
  else None.

(** [re.findall] for a pattern with a single group spanning the whole
    match and no empty match: positions are tried from left to right and
    the scan resumes after each match.  [skip] counts the characters of the
    last match still to be passed. *)
Fixpoint findall_from (m : option ascii -> string -> option string)
    (prev : option ascii) (skip : nat) (s : string) : list string :=
  match s with
  | EmptyString => []
  | String c t =>
      match skip with
      | S k => findall_from m (Some c) k t
      | O =>
          match m prev s with
          | Some w => w :: findall_from m (Some c) (String.length w - 1) t
          | None => findall_from m (Some c) 0 t
          end
      end
  end.

(** [re.findall(r'\b(\d+)\b', s)] *)
Definition findall_int (s : string) : list string :=
  findall_from (match_bounded_run is_digit 1) None 0 s.

(** [re.findall(r'\b[a-zA-Z]{3,}\b', s)] *)
Definition findall_words (s : string) : list string :=
  findall_from (match_bounded_run is_ascii_letter 3) None 0 s.

(** The patterns of [duration_patterns]. *)
Inductive pattern : Type :=
| DigitsThen (word : string)   (* (\d+)\s*<word>s?  *)
| Literal (word : string).     (* <word>            *)

(** One attempt at the start of [s]; the result lists the captured groups. *)
Definition match_here (p : pattern) (s : string) : option (list string) :=
  match p with
  | DigitsThen word =>
      let (digits, r1) := span is_digit s in
      let (_, r2) := span is_space r1 in
      if negb (is_empty digits) && prefix word r2 then Some [digits] else None
  | Literal word => if prefix word s then Some [] else None
  end.

(** [re.search(p, s)]: the leftmost match. *)
Fixpoint search (p : pattern) (s : string) : option (list string) :=
  match match_here p s with
  | Some groups => Some groups
  | None =>
      match s with
      | EmptyString => None
      | String _ t => search p t
      end
  end.

(** [match.group(1)] *)
Definition group1 (groups : list string) : string := nth 0 groups EmptyString.

(** [re.sub] for a pattern that matches no empty string: [m s] is the
    length of the match at the start of [s], if there is one. *)
Fixpoint sub_from (m : string -> option nat) (repl : string) (skip : nat)
    (s : string) : string :=
  match s with
  | EmptyString => EmptyString
  | String c t =>
      match skip with
      | S k => sub_from m repl k t
      | O =>
          match m s with
          | Some n => repl ++ sub_from m repl (n - 1) t
          | None => String c (sub_from m repl 0 t)
          end
      end
  end.

(** [\s+] at the start of [s]. *)
Definition match_spaces (s : string) : option nat :=
  let (ws, _) := span is_space s in
  if is_empty ws then None else Some (String.length ws).

(** The class of stray bullet characters, written in the source as the
    code points E2, 20AC, A2, C2, B7; 20AC is outside the modelled range. *)
Definition is_bullet (c : ascii) : bool :=
  is_code 226 c || is_code 162 c || is_code 194 c || is_code 183 c.

Definition is_semicolon (c : ascii) : bool := is_code 59 c.

Definition match_bullet (s : string) : option nat :=
  match s with
  | String c _ => if is_bullet c then Some 1%nat else None
  | EmptyString => None
  end.

(** [;\s*;] at the start of [s]. *)
Definition match_double_semicolon (s : string) : option nat :=
  match s with
  | String c t =>
      if is_semicolon c
      then let (ws, rest) := span is_space t in
           match rest with
           | String c' _ =>
               if is_semicolon c' then Some (2 + String.length ws)%nat else None
           | EmptyString => None
           end
      else None
  | EmptyString => None
  end.

(** [re.sub(r'\s+', ' ', s)] *)
Definition sub_spaces (s : string) : string := sub_from match_spaces " " 0 s.

(** [re.sub(r'^[<bullets>;]\s*', '', s)]: only the start of the text can
    match. *)
Definition sub_leading_bullet (s : string) : string :=
  match s with
  | String c t => if is_bullet c || is_semicolon c then lstrip t else s
  | EmptyString => EmptyString
  end.

(** [re.sub(r'[<bullets>]', '; ', s)] *)
Definition sub_bullets (s : string) : string := sub_from match_bullet "; " 0 s.

(** [re.sub(r';\s*;', ';', s)] *)
Definition sub_double_semicolon (s : string) : string :=
  sub_from match_double_semicolon ";" 0 s.

End Re.

(** ** Dictionaries *)

Module Dict.

Definition dict (V : Type) : Type := list (string * V).

(** [d[k] = v]: an existing key keeps its place and takes the new value. *)
Fixpoint set {V : Type} (k : string) (v : V) (d : dict V) : dict V :=
  match d with
  | [] => [(k, v)]
  | (k', v') :: rest =>
      if String.eqb k k' then (k', v) :: rest else (k', v') :: set k v rest
  end.

(** A dictionary display [{k1: v1, k2: v2, ...}]. *)
Definition literal {V : Type} (items : list (string * V)) : dict V :=
  fold_left (fun d kv => set (fst kv) (snd kv) d) items [].

(** [d.get(k)] *)
Fixpoint get {V : Type} (k : string) (d : dict V) : option V :=
  match d with
  | [] => None
  | (k', v) :: rest => if String.eqb k k' then Some v else get k rest
  end.

(** [k in d] *)
Definition mem {V : Type} (k : string) (d : dict V) : bool :=
  match get k d with
  | Some _ => true
  | None => false
  end.

End Dict.

(** ** The data model *)

Inductive PersonaType : Type :=
  general | travel_professional | content_creator | business.

Inductive GroupType : Type := individual | group.

Inductive AgeGroup : Type := adult | young_adult | family | senior.

Inductive BudgetLevel : Type := mid_range | budget | luxury.

Inductive Activity : Type :=
  adventure | cultural | relaxation | nightlife | culinary | nature.

Definition Activity_eqb (a b : Activity) : bool :=
  match a, b with
  | adventure, adventure | cultural, cultural | relaxation, relaxation
  | nightlife, nightlife | culinary, culinary | nature, nature => true
  | _, _ => false
  end.

(** The [context] dictionary.  The key ['group_size'] is present only when
    the analyzer found a number, hence the [option]. *)
Record Context : Type := mkContext {
  persona_type : PersonaType;
  group_type : GroupType;
  group_size : option Z;
  trip_duration : string;
  age_group : AgeGroup;
  budget_level : BudgetLevel;
  activity_preferences : list Activity;
  special_requirements : list string
}.

(** One entry of [content_patterns]. *)
Record ContentPattern : Type := mkPattern {
  pattern_name : string;
  keywords : list string;
  weight_multiplier : Q;
  content_type : string
}.

(** ** [DynamicTravelModel.__init__]: the static tables *)

Definition travel_keywords : Dict.dict Z :=
  Dict.literal
    [ (* Core travel planning *)
      ("trip", 15); ("travel", 15); ("planning", 20); ("itinerary", 18);
      ("journey", 12); ("vacation", 12); ("holiday", 10); ("tour", 14);
      ("visit", 8); ("explore", 12);
      (* Group and social travel *)
      ("group", 20); ("friends", 18); ("college", 15); ("student", 12);
      ("young", 10); ("together", 8); ("social", 10); ("party", 8);
      ("team", 8);
      (* Activities and experiences *)
      ("activities", 18); ("experiences", 16); ("adventures", 16);
      ("attractions", 14); ("entertainment", 14); ("nightlife", 14);
      ("cultural", 12); ("outdoor", 10); ("sightseeing", 12);
      ("excursions", 10);
      (* Accommodation and logistics *)
      ("accommodation", 12); ("hotels", 12); ("restaurants", 12);
      ("dining", 10); ("booking", 8); ("reservations", 8);
      ("transportation", 10);
      (* Travel advice and tips *)
      ("tips", 16); ("advice", 14); ("guide", 18); ("recommendations", 14);
      ("suggestions", 10); ("tricks", 12); ("information", 8);
      (* Specific activity types *)
      ("coastal", 14); ("beach", 12); ("sea", 8); ("water", 8);
      ("mountain", 8); ("city", 10); ("urban", 8); ("rural", 6);
      ("countryside", 6);
      (* Food and drink *)
      ("culinary", 16); ("cuisine", 14); ("food", 12); ("cooking", 10);
      ("wine", 8); ("restaurant", 10); ("cafe", 6); ("dining", 10);
      (* Practical travel *)
      ("packing", 14); ("luggage", 8); ("clothes", 6); ("weather", 8);
      ("documents", 8); ("passport", 6); ("visa", 6);
      (* Budget considerations *)
      ("budget", 16); ("cheap", 10); ("affordable", 12); ("expensive", 6);
      ("cost", 8); ("price", 6); ("money", 6) ]%Z.

Definition content_patterns : list ContentPattern :=
  [ mkPattern "guide_comprehensive"
      ["guide"; "comprehensive"; "overview"; "introduction"] 1.5 "overview";
    mkPattern "activities_adventure"
      ["activities"; "adventures"; "things"; "do"; "outdoor"; "sports"]
      1.4 "activities";
    mkPattern "food_culinary"
      ["food"; "culinary"; "cuisine"; "dining"; "restaurants"; "cooking"]
      1.3 "culinary";
    mkPattern "accommodation_hotels"
      ["hotels"; "accommodation"; "stay"; "lodging"; "booking"]
      1.2 "accommodation";
    mkPattern "transportation_logistics"
      ["transportation"; "travel"; "getting"; "around"; "logistics"]
      1.1 "transportation";
    mkPattern "tips_advice"
      ["tips"; "advice"; "tricks"; "recommendations"; "suggestions"]
      1.3 "tips";
    mkPattern "nightlife_entertainment"
      ["nightlife"; "entertainment"; "bars"; "clubs"; "party"]
      1.2 "entertainment";
    mkPattern "cultural_historical"
      ["cultural"; "culture"; "historical"; "history"; "heritage"]
      1.1 "cultural" ].

(** ** [analyze_persona_job_context] *)

Import Text.

(** [duration_patterns], in the order its items are iterated. *)
Definition duration_patterns : list (Re.pattern * string) :=
  [ (Re.DigitsThen "day", "days");
    (Re.DigitsThen "week", "weeks");
    (Re.Literal "weekend", "weekend");
    (Re.Literal "long weekend", "long_weekend") ].

(** The loop over [duration_patterns]: the first pattern that matches sets
    the duration and leaves the loop. *)
Fixpoint scan_durations (patterns : list (Re.pattern * string))
    (combined_text : string) (current : string) : string :=
  match patterns with
  | [] => current
  | (pattern, duration_type) :: rest =>
      match Re.search pattern combined_text with
      | Some groups =>
          if String.eqb duration_type "days" || String.eqb duration_type "weeks"
          then Re.group1 groups ++ "_" ++ duration_type
          else duration_type
      | None => scan_durations rest combined_text current
      end
  end.

(** [activity_types], in the order its items are iterated. *)
Definition activity_types : list (Activity * list string) :=
  [ (adventure, ["adventure"; "outdoor"; "hiking"; "sports"; "active"]);
    (cultural, ["cultural"; "museum"; "historical"; "art"; "heritage"]);
    (relaxation, ["relax"; "spa"; "beach"; "peaceful"; "quiet"]);
    (nightlife, ["nightlife"; "party"; "bars"; "clubs"; "entertainment"]);
    (culinary, ["food"; "culinary"; "dining"; "restaurant"; "cooking"]);
    (nature, ["nature"; "natural"; "park"; "wildlife"; "scenery"]) ].

Definition analyze_persona_job_context (persona_text job_text : string)
    : Context :=
  let combined_text := lower (persona_text ++ " " ++ job_text) in
  (* Analyze persona type *)
  let persona :=
    if any_in ["travel planner"; "travel agent"; "tour guide"] combined_text
    then travel_professional
    else if any_in ["blogger"; "writer"; "journalist"] combined_text
    then content_creator
    else if any_in ["business"; "corporate"; "executive"] combined_text
    then business
    else general in
  (* Analyze group type and size *)
  let '(grp, size) :=
    if occurs_in "group" combined_text
    then (group,
          match Re.findall_int job_text with
          | first :: _ => Some (int_of_digits first)
          | [] => None
          end)
    else (individual, None) in
  (* Analyze age group *)
  let age :=
    if any_in ["college"; "student"; "young"; "youth"] combined_text
    then young_adult
    else if any_in ["family"; "children"; "kids"] combined_text
    then family
    else if any_in ["senior"; "elderly"; "retirement"] combined_text
    then senior
    else adult in
  (* Analyze trip duration *)
  let duration := scan_durations duration_patterns combined_text "unknown" in
  (* Analyze budget preferences *)
  let budget_ :=
    if any_in ["budget"; "cheap"; "affordable"; "low-cost"] combined_text
    then budget
    else if any_in ["luxury"; "premium"; "high-end"; "expensive"] combined_text
    then luxury
    else mid_range in
  (* Analyze activity preferences *)
  let preferences :=
    fold_left
      (fun acc '(activity, kws) =>
         if any_in kws combined_text then acc ++ [activity] else acc)
      activity_types [] in
  {| persona_type := persona;
     group_type := grp;
     group_size := size;
     trip_duration := duration;
     age_group := age;
     budget_level := budget_;
     activity_preferences := preferences;
     special_requirements := [] |}.

(** ** [calculate_dynamic_relevance] *)

(** [min(a, b)]: the first argument unless the second is strictly smaller. *)
Definition py_min (a b : Q) : Q := if Qle_bool a b then a else b.

(** The loop [for word in words] that accumulates [keyword_score]. *)
Definition keyword_score_of (words : list string) : Z :=
  fold_left
    (fun keyword_score word =>
       match Dict.get word travel_keywords with
       | Some weight => (keyword_score + weight)%Z
       | None => keyword_score
       end)
    words 0%Z.

(** The body of the loop [for preference in context['activity_preferences']]. *)
Definition preference_step (full_text : string) (context_multiplier : Q)
    (preference : Activity) : Q :=
  if Activity_eqb preference adventure
     && any_in ["adventure"; "outdoor"; "active"] full_text
  then context_multiplier + 0.2
  else if Activity_eqb preference cultural
          && any_in ["cultural"; "museum"; "historical"] full_text
  then context_multiplier + 0.2
  else if Activity_eqb preference culinary
          && any_in ["food"; "culinary"; "restaurant"] full_text
  then context_multiplier + 0.2
  else if Activity_eqb preference nightlife
          && any_in ["nightlife"; "entertainment"; "bars"] full_text
  then context_multiplier + 0.2
  else context_multiplier.

(** The statements that adjust [context_multiplier], in program order. *)
Definition context_multiplier_of (full_text : string) (context : Context) : Q :=
  let context_multiplier := 1.0 in
  (* Adjust for persona type *)
  let context_multiplier :=
    match persona_type context with
    | travel_professional =>
        if any_in ["guide"; "comprehensive"; "planning"] full_text
        then context_multiplier + 0.3 else context_multiplier
    | _ => context_multiplier
    end in
  (* Adjust for group type *)
  let context_multiplier :=
    match group_type context with
    | group =>
        if any_in ["group"; "friends"; "together"] full_text
        then context_multiplier + 0.4 else context_multiplier
    | _ => context_multiplier
    end in
  (* Adjust for age group *)
  let context_multiplier :=
    match age_group context with
    | young_adult =>
        if any_in ["nightlife"; "adventure"; "budget"; "student"] full_text
        then context_multiplier + 0.3 else context_multiplier
    | family =>
        if any_in ["family"; "safe"; "activities"; "educational"] full_text
        then context_multiplier + 0.3 else context_multiplier
    | _ => context_multiplier
    end in
  (* Adjust for budget level *)
  let context_multiplier :=
    match budget_level context with
    | budget =>
        if any_in ["budget"; "cheap"; "affordable"; "tips"] full_text
        then context_multiplier + 0.2 else context_multiplier
    | luxury =>
        if any_in ["luxury"; "premium"; "exclusive"; "high-end"] full_text
        then context_multiplier + 0.2 else context_multiplier
    | _ => context_multiplier
    end in
  (* Adjust for activity preferences *)
  fold_left (preference_step full_text) (activity_preferences context)
    context_multiplier.

(** [sum(1 for keyword in pattern_info['keywords'] if keyword in full_text)] *)
Definition pattern_matches_of (full_text : string) (info : ContentPattern)
    : nat :=
  List.length (filter (fun keyword => occurs_in keyword full_text) (keywords info)).

(** The loop over [content_patterns] that accumulates [pattern_bonus]. *)
Definition pattern_bonus_of (full_text : string) : Q :=
  fold_left
    (fun pattern_bonus info =>
       let pattern_matches := pattern_matches_of full_text info in
       if (0 <? pattern_matches)%nat
       then pattern_bonus
            + inject_Z (Z.of_nat pattern_matches) * weight_multiplier info * 5
       else pattern_bonus)
    content_patterns 0.

Definition calculate_dynamic_relevance (text title : string)
    (context : Context) (document_name : string) (page_num : Z) : Q :=
  if is_empty text && is_empty title then 0.0
  else
    let full_text := lower (title ++ " " ++ text) in
    let words := Re.findall_words full_text in
    match words with
    | [] => 0.0
    | _ :: _ =>
        (* Base keyword scoring *)
        let keyword_score := keyword_score_of words in
        (* Context-based adjustments *)
        let context_multiplier := context_multiplier_of full_text context in
        (* Pattern-based scoring *)
        let pattern_bonus := pattern_bonus_of full_text in
        (* Calculate final score *)
        let base_score :=
          inject_Z keyword_score / inject_Z (Z.of_nat (List.length words)) * 10 in
        let final_score := (base_score + pattern_bonus) * context_multiplier in
        py_min final_score 100.0
    end.

Definition default_context : Context :=
  mkContext general individual None "unknown" adult mid_range [] [].

(** ** [_generate_dynamic_fallback] *)

Inductive SectionType : Type :=
| sec_general | sec_guide | sec_activities | sec_culinary
| sec_accommodation | sec_tips | sec_entertainment | sec_transportation.

(** The chain that determines [section_type] from the lower-cased title. *)
Definition section_type_of (title_lower : string) : SectionType :=
  if any_in ["guide"; "comprehensive"; "overview"] title_lower
  then sec_guide
  else if any_in ["activities"; "things"; "adventures"] title_lower
  then sec_activities
  else if any_in ["food"; "culinary"; "dining"; "restaurant"] title_lower
  then sec_culinary
  else if any_in ["accommodation"; "hotels"; "stay"] title_lower
  then sec_accommodation
  else if any_in ["tips"; "advice"; "packing"] title_lower
  then sec_tips
  else if any_in ["nightlife"; "entertainment"; "bars"] title_lower
  then sec_entertainment
  else if any_in ["transportation"; "travel"; "getting"] title_lower
  then sec_transportation
  else sec_general.

(** [x in context['activity_preferences']] *)
Definition prefers (a : Activity) (context : Context) : bool :=
  existsb (Activity_eqb a) (activity_preferences context).

Definition is_group (context : Context) : bool :=
  match group_type context with group => true | _ => false end.

Definition is_age (a : AgeGroup) (context : Context) : bool :=
  match a, age_group context with
  | adult, adult | young_adult, young_adult | family, family
  | senior, senior => true
  | _, _ => false
  end.

(** [content_parts.append(part)] when [cond] holds. *)
Definition append_if (cond : bool) (part : string) (content_parts : list string)
    : list string :=
  if cond then content_parts ++ [part] else content_parts.

(** The parts written by the branch of the section type.  The types
    accommodation and transportation have no branch of their own and take
    the final [else]. *)
Definition section_parts (section_type : SectionType) (section_title : string)
    (title_lower : string) (context : Context) : list string :=
  let content_parts := [] in
  match section_type with
  | sec_guide =>
      let content_parts := content_parts ++
        [("This " ++ lower section_title ++ " provides comprehensive information for planning your trip.")%string] in
      let content_parts := append_if (is_group context)
        ("Designed specifically for group travel, with recommendations suitable for "
         ++ match group_size context with
            | Some n => str_of_int n
            | None => "multiple"
            end ++ " travelers.") content_parts in
      let content_parts := append_if (is_age young_adult context)
        "Includes budget-friendly options and activities popular with young travelers."
        content_parts in
      append_if (is_age family context)
        "Features family-friendly activities, educational experiences, and multi-generational bonding opportunities that cater to different age groups."
        content_parts
  | sec_activities =>
      let content_parts := content_parts ++
        [("Explore a variety of " ++ lower section_title ++ " designed to enhance your travel experience.")%string] in
      let content_parts := append_if (prefers adventure context)
        "Features outdoor adventures, active experiences, and thrilling activities perfect for creating lasting memories."
        content_parts in
      let content_parts :=
        append_if (prefers cultural context || is_age family context)
        "Includes cultural experiences, historical sites, museums, and local traditions that provide educational value."
        content_parts in
      let content_parts := append_if (is_group context)
        "Group-friendly activities that everyone can enjoy together, with options for different skill levels and interests."
        content_parts in
      (* Add specific activity examples *)
      append_if (occurs_in "coastal" title_lower || occurs_in "beach" title_lower)
        "Beach activities include swimming, sunbathing, water sports, and coastal walks. Popular beaches offer amenities like restaurants, equipment rentals, and lifeguard services."
        content_parts
  | sec_culinary =>
      let content_parts := content_parts ++
        [("Discover the " ++ lower section_title ++ " that showcase local flavors and dining traditions.")%string] in
      let content_parts := content_parts ++
        ["From traditional dishes to modern cuisine, explore cooking classes, food tours, and restaurant recommendations."] in
      let content_parts :=
        match budget_level context with
        | budget => content_parts ++
            ["Includes affordable dining options, local food markets, and budget-friendly restaurants that offer authentic experiences."]
        | luxury => content_parts ++
            ["Features fine dining establishments, exclusive culinary experiences, and renowned restaurants with exceptional service."]
        | mid_range => content_parts
        end in
      append_if (is_age family context)
        "Family-friendly restaurants with varied menus, child-appropriate options, and welcoming atmospheres for all ages."
        content_parts
  | sec_tips =>
      let content_parts := content_parts ++
        [("Essential " ++ lower section_title ++ " to help you prepare for and enjoy your trip.")%string] in
      let content_parts := append_if (is_age young_adult context)
        "Student-friendly tips for budget travel, money-saving strategies, and making the most of your experience."
        content_parts in
      let content_parts := append_if (is_group context)
        "Group travel considerations including coordination tips, shared expenses, and communication strategies."
        content_parts in
      let content_parts := append_if (is_age family context)
        "Family travel essentials including packing for different ages, safety considerations, and keeping everyone entertained."
        content_parts in
      (* Add specific packing advice *)
      content_parts ++
        ["Packing recommendations include versatile clothing, essential documents, first aid supplies, and items specific to your planned activities."]
  | sec_entertainment =>
      let content_parts := content_parts ++
        [("Experience the vibrant " ++ lower section_title ++ " scene with options ranging from casual to upscale venues.")%string] in
      let content_parts := append_if (is_age young_adult context)
        "Popular with college students and young travelers, featuring trendy bars, clubs, live music venues, and social hotspots."
        content_parts in
      let content_parts := append_if (is_age family context)
        "Family-appropriate entertainment including cultural performances, festivals, and evening activities suitable for all ages."
        content_parts in
      content_parts ++
        ["Includes live music venues, entertainment districts, cultural shows, and nighttime activities with something for every taste."]
  | sec_general | sec_accommodation | sec_transportation =>
      let content_parts := content_parts ++
        [("This section covers " ++ lower section_title ++ " with practical information and recommendations.")%string] in
      let content_parts :=
        append_if
          match persona_type context with travel_professional => true | _ => false end
          "Provides detailed insights for professional travel planning and client recommendations."
          content_parts in
      append_if (is_age family context)
        "Includes considerations for traveling with multiple generations and varying interests."
        content_parts
  end.

(** The context-specific closing sentence. *)
Definition closing_parts (context : Context) (content_parts : list string)
    : list string :=
  let duration_text := trip_duration context in
  if negb (is_empty duration_text) && occurs_in "days" duration_text
  then
    let duration := replace_char "_" " " duration_text in
    content_parts ++
      [("Perfect for planning a " ++ duration ++ " itinerary with optimal time management and efficient use of your vacation time.")%string]
  else if negb (is_empty duration_text) && occurs_in "weeks" duration_text
  then
    let duration := replace_char "_" " " duration_text in
    content_parts ++
      [("Ideal for extended " ++ duration ++ " stays that allow for deeper exploration and immersive experiences.")%string]
  else content_parts.

(** [_generate_dynamic_fallback].  The local [doc_name], computed from
    [pdf_path], is never read, so [pdf_path] does not influence the text. *)
Definition _generate_dynamic_fallback (section_title pdf_path : string)
    (context : Context) : string :=
  let title_lower := lower section_title in
  let section_type := section_type_of title_lower in
  let content_parts :=
    section_parts section_type section_title title_lower context in
  let content_parts := closing_parts context content_parts in
  join " " content_parts.

(** ** Records of the pipeline *)

(** [d.get(key, default)] on a key that may be absent. *)
Definition get_or {A : Type} (field : option A) (default : A) : A :=
  match field with
  | Some v => v
  | None => default
  end.

(** One outline entry returned by the structure extractor. *)
Module Outline.
Record entry : Type := mk {
  text : option string;
  page : option Z;
  level : option Z
}.
End Outline.

(** The result of [analyzer.analyze_pdf]. *)
Record StructuredContent : Type := mkStructured {
  sc_title : option string;
  sc_outline : option (list Outline.entry)
}.

(** An outline entry extended with its score and content. *)
Module Enhanced.
Record section : Type := mk {
  text : option string;
  page : option Z;
  level : option Z;
  relevance_score : option Q;
  dynamic_content : option string
}.
End Enhanced.

(** One element of [processed_documents]. *)
Record ProcessedDocument : Type := mkProcessed {
  doc_name : string;
  doc_title : option string;
  doc_outline : option (list Enhanced.section)
}.

(** The [section_dict] built by the ranking step. *)
Module Ranked.
Record section : Type := mk {
  document_name : string;
  page_number : Z;
  section_title : string;
  dynamic_content : string;
  level : Z;
  relevance_score : Q
}.
End Ranked.

Module Output.
Record extracted_section : Type := mkExtracted {
  document : string;
  section_title : string;
  importance_rank : Z;
  page_number : Z
}.
Record analysis_item : Type := mkAnalysis {
  a_document : string;
  refined_text : string;
  a_page_number : Z
}.
Record data : Type := mkData {
  persona : string;
  job_to_be_done : string;
  extracted_sections : list extracted_section;
  subsection_analysis : list analysis_item
}.
End Output.

(** What the page-text provider does for one page of one document: any
    exception raised while the page is opened, read or scanned, a page
    index at or past the page count, or the texts of the page's blocks. *)
Inductive PageOutcome : Type :=
| ProviderRaises
| PageOutOfRange
| PageBlocks (text_blocks : list string).

(** ** [extract_dynamic_content] *)

(** The loop over [text_blocks].  [section_found] is the sticky flag;
    returning [extracted_content] before the blocks are exhausted is the
    [break]. *)
Fixpoint scan_blocks (section_title : string) (content_length_target : nat)
    (text_blocks : list string) (extracted_content : list string)
    (section_found : bool) : list string :=
  match text_blocks with
  | [] => extracted_content
  | block :: rest =>
      let block_text := strip block in
      if occurs_in (lower section_title) (lower block_text)
         || existsb (fun word => occurs_in word (lower block_text))
              (filter (fun word => (3 <? String.length word)%nat)
                 (split (lower section_title)))
         || section_found
      then
        (* Skip the title itself *)
        if String.eqb (strip (lower block_text)) (strip (lower section_title))
        then scan_blocks section_title content_length_target rest
               extracted_content true
        else
          (* Add meaningful content blocks *)
          let extracted_content :=
            if (20 <? String.length block_text)%nat && negb (isdigit block_text)
            then extracted_content ++ [block_text]
            else extracted_content in
          (* Check if we have enough content *)
          if (content_length_target <? String.length (join " " extracted_content))%nat
          then extracted_content
          else scan_blocks section_title content_length_target rest
                 extracted_content true
      else scan_blocks section_title content_length_target rest
             extracted_content section_found
  end.

(** The clean-up of the joined blocks. *)
Definition normalize_content (extracted_content : list string) : string :=
  let result := join " " extracted_content in
  let result := Re.sub_spaces result in
  let result := Re.sub_leading_bullet result in
  let result := Re.sub_bullets result in
  let result := Re.sub_double_semicolon result in
  strip result.

Section Pipeline.

(** [Path(pdf_path).name] *)
Variable path_name : string -> string.

(** [analyzer.analyze_pdf(pdf_path)]; [None] when it raises. *)
Variable analyze_pdf : string -> option StructuredContent.

(** The page-text provider behind [fitz.open(pdf_path)[page_num]]. *)
Variable page_text : string -> Z -> PageOutcome.

Definition extract_dynamic_content (pdf_path : string) (page_num : Z)
    (section_title : string) (context : Context) : string :=
  match page_text pdf_path page_num with
  | ProviderRaises => _generate_dynamic_fallback section_title pdf_path context
  | PageOutOfRange => _generate_dynamic_fallback section_title pdf_path context
  | PageBlocks text_blocks =>
      let content_length_target := 300%nat in
      let content_length_target :=
        if is_group context then (content_length_target + 100)%nat
        else content_length_target in
      let content_length_target :=
        match persona_type context with
        | travel_professional => (content_length_target + 150)%nat
        | _ => content_length_target
        end in
      let extracted_content :=
        scan_blocks section_title content_length_target text_blocks [] false in
      match extracted_content with
      | _ :: _ =>
          let result := normalize_content extracted_content in
          (* Ensure minimum content quality *)
          if (String.length result <? 100)%nat
          then _generate_dynamic_fallback section_title pdf_path context
          else result
      | [] => _generate_dynamic_fallback section_title pdf_path context
      end
  end.

(** ** [process_documents_dynamic] *)

(** The body of the loop over the outline: one enhanced section. *)
Definition enhance_section (pdf_path document_name : string)
    (context : Context) (section : Outline.entry) : Enhanced.section :=
  let section_title := get_or (Outline.text section) "" in
  let page_number := get_or (Outline.page section) 0%Z in
  let relevance_score :=
    calculate_dynamic_relevance section_title section_title context
      document_name page_number in
  let dynamic_content :=
    extract_dynamic_content pdf_path page_number section_title context in
  Enhanced.mk (Outline.text section) (Outline.page section)
    (Outline.level section) (Some relevance_score) (Some dynamic_content).

(** The body of the [try]: [None] when the extractor raises, which the
    [except] clause turns into [continue]. *)
Definition process_document (context : Context) (pdf_path : string)
    : option ProcessedDocument :=
  let document_name := path_name pdf_path in
  match analyze_pdf pdf_path with
  | None => None
  | Some structured_content =>
      let enhanced_outline :=
        fold_left
          (fun enhanced_outline section =>
             enhanced_outline
             ++ [enhance_section pdf_path document_name context section])
          (get_or (sc_outline structured_content) []) [] in
      Some (mkProcessed document_name (sc_title structured_content)
              (Some enhanced_outline))
  end.

Definition process_documents_dynamic (pdf_files : list string)
    (context : Context) : list ProcessedDocument :=
  fold_left
    (fun processed_documents pdf_path =>
       match process_document context pdf_path with
       | Some document_structure => processed_documents ++ [document_structure]
       | None => processed_documents
       end)
    pdf_files [].

End Pipeline.

(** ** [analyze_and_rank_sections] *)

Definition section_dict (document_name : string) (section : Enhanced.section)
    : Ranked.section :=
  let section_title := get_or (Enhanced.text section) "" in
  let page_number := get_or (Enhanced.page section) 0%Z in
  let level := get_or (Enhanced.level section) 0%Z in
  let relevance_score := get_or (Enhanced.relevance_score section) 0 in
  let dynamic_content :=
    get_or (Enhanced.dynamic_content section) section_title in
  Ranked.mk document_name page_number section_title dynamic_content level
    relevance_score.

(** The two nested loops that fill [all_sections]. *)
Definition collect_sections (processed_documents : list ProcessedDocument)
    : list Ranked.section :=
  fold_left
    (fun all_sections doc =>
       fold_left
         (fun all_sections section =>
            all_sections ++ [section_dict (doc_name doc) section])
         (get_or (doc_outline doc) []) all_sections)
    processed_documents [].

(** [sorted(l, key=key, reverse=True)]: the stable sort by decreasing key.
    An element is put in front of the first element whose key is not
    greater than its own, so it stays ahead of later elements with an equal
    key. *)
Fixpoint insert_desc {A : Type} (key : A -> Q) (x : A) (l : list A) : list A :=
  match l with
  | [] => [x]
  | y :: rest =>
      if Qle_bool (key y) (key x) then x :: l
      else y :: insert_desc key x rest
  end.

Definition sorted_reverse {A : Type} (key : A -> Q) (l : list A) : list A :=
  fold_right (insert_desc key) [] l.

Definition analyze_and_rank_sections (persona_text job_text : string)
    (processed_documents : list ProcessedDocument) (context : Context)
    : list Ranked.section :=
  let all_sections := collect_sections processed_documents in
  sorted_reverse Ranked.relevance_score all_sections.

(** ** [generate_dynamic_output] *)

(** [enumerate(l, start)] *)
Fixpoint enumerate {A : Type} (start : Z) (l : list A) : list (Z * A) :=
  match l with
  | [] => []
  | x :: rest => (start, x) :: enumerate (start + 1) rest
  end.

(** The record that is serialised to the output file (the metadata keeps
    the persona and the job only). *)
Definition generate_dynamic_output (ranked_sections : list Ranked.section)
    (persona_text job_text : string) : Output.data :=
  (* Take top 5 ranked sections *)
  let top_5_sections := firstn 5 ranked_sections in
  let extracted_sections :=
    fold_left
      (fun extracted_sections '(i, section) =>
         extracted_sections
         ++ [Output.mkExtracted (Ranked.document_name section)
               (Ranked.section_title section) i (Ranked.page_number section)])
      (enumerate 1 top_5_sections) [] in
  let subsection_analysis :=
    fold_left
      (fun subsection_analysis section =>
         subsection_analysis
         ++ [Output.mkAnalysis (Ranked.document_name section)
               (Ranked.dynamic_content section) (Ranked.page_number section)])
      top_5_sections [] in
  Output.mkData persona_text job_text extracted_sections subsection_analysis.

(** ** Reference definitions used in the statements *)

(** The sections of all documents in encounter order: document order, then
    outline order within a document. *)
Definition encounter_order (processed_documents : list ProcessedDocument)
    : list Ranked.section :=
  flat_map
    (fun doc => map (section_dict (doc_name doc)) (get_or (doc_outline doc) []))
    processed_documents.

(** [a] may precede [b] in a sequence of decreasing keys. *)
Definition key_ge {A : Type} (key : A -> Q) (a b : A) : Prop := key b <= key a.

(** Decreasing order of the relevance score. *)
Definition score_ge : Ranked.section -> Ranked.section -> Prop :=
  key_ge Ranked.relevance_score.

(** The sections whose score equals [q]. *)
Definition with_score (q : Q) (l : list Ranked.section) : list Ranked.section :=
  filter (fun s => Qeq_bool (Ranked.relevance_score s) q) l.

(** The lower-cased concatenation of title and body that the scorer reads,
    and its tokens. *)
Definition full_text_of (text title : string) : string :=
  lower (title ++ " " ++ text).

Definition tokens_of (text title : string) : list string :=
  Re.findall_words (full_text_of text title).

(** No token of the text is a key of the keyword table. *)
Definition no_keyword_token (text title : string) : bool :=
  forallb (fun token => negb (Dict.mem token travel_keywords))
    (tokens_of text title).

(** No phrase of any content pattern occurs in the text. *)
Definition no_pattern_phrase (text title : string) : bool :=
  forallb
    (fun info =>
       forallb (fun keyword => negb (occurs_in keyword (full_text_of text title)))
         (keywords info))
    content_patterns.

(** *** The relevance score as the specification words it *)

Definition Qsum (l : list Q) : Q := fold_right Qplus 0 l.

Definition Zsum (l : list Z) : Z := fold_right Z.add 0%Z l.

(** The weight of a token in the keyword table; unmatched tokens weigh 0. *)
Definition table_weight (token : string) : Z :=
  get_or (Dict.get token travel_keywords) 0%Z.

(** Average weight per token, scaled by 10. *)
Definition spec_base_score (tokens : list string) : Q :=
  inject_Z (Zsum (map table_weight tokens))
  / inject_Z (Z.of_nat (List.length tokens)) * 10.

(** Number of phrases of a pattern that occur in the text. *)
Definition spec_hits (full_text : string) (info : ContentPattern) : nat :=
  List.length (filter (fun phrase => occurs_in phrase full_text) (keywords info)).

(** hits x multiplier x 5, summed over every pattern definition. *)
Definition spec_pattern_bonus (full_text : string) : Q :=
  Qsum
    (map (fun info =>
            inject_Z (Z.of_nat (spec_hits full_text info))
            * weight_multiplier info * 5)
       content_patterns).

(** A bonus that applies or contributes nothing. *)
Definition bonus_if (applies : bool) (amount : Q) : Q :=
  if applies then amount else 0.

(** The cue set of an activity preference; relaxation and nature have
    none. *)
Definition preference_cues (a : Activity) : list string :=
  match a with
  | adventure => ["adventure"; "outdoor"; "active"]
  | cultural => ["cultural"; "museum"; "historical"]
  | culinary => ["food"; "culinary"; "restaurant"]
  | nightlife => ["nightlife"; "entertainment"; "bars"]
  | relaxation | nature => []
  end.

Definition is_persona (p : PersonaType) (context : Context) : bool :=
  match p, persona_type context with
  | general, general | travel_professional, travel_professional
  | content_creator, content_creator | business, business => true
  | _, _ => false
  end.

Definition is_budget (b : BudgetLevel) (context : Context) : bool :=
  match b, budget_level context with
  | mid_range, mid_range | budget, budget | luxury, luxury => true
  | _, _ => false
  end.

(** 1.0 plus every applicable context bonus, each counted on its own. *)
Definition spec_context_multiplier (full_text : string) (context : Context) : Q :=
  1.0
  + bonus_if (is_persona travel_professional context
              && any_in ["guide"; "comprehensive"; "planning"] full_text) 0.3
  + bonus_if (is_group context
              && any_in ["group"; "friends"; "together"] full_text) 0.4
  + bonus_if (is_age young_adult context
              && any_in ["nightlife"; "adventure"; "budget"; "student"] full_text)
      0.3
  + bonus_if (is_age family context
              && any_in ["family"; "safe"; "activities"; "educational"] full_text)
      0.3
  + bonus_if (is_budget budget context
              && any_in ["budget"; "cheap"; "affordable"; "tips"] full_text) 0.2
  + bonus_if (is_budget luxury context
              && any_in ["luxury"; "premium"; "exclusive"; "high-end"] full_text)
      0.2
  + Qsum
      (map (fun preference =>
              bonus_if (any_in (preference_cues preference) full_text) 0.2)
         (activity_preferences context)).

(** The value [x] capped at [limit]. *)
Definition capped (limit x : Q) : Q := if Qle_bool x limit then x else limit.

Definition spec_relevance (text title : string) (context : Context) : Q :=
  let full_text := full_text_of text title in
  capped 100.0
    ((spec_base_score (tokens_of text title) + spec_pattern_bonus full_text)
     * spec_context_multiplier full_text context).

(** The ranked-section records of one document whose structure was
    extracted: one per outline entry, in outline order. *)
Definition scored_sections (path_name : string -> string)
    (page_text : string -> Z -> PageOutcome) (context : Context)
    (pdf_path : string) (structured_content : StructuredContent)
    : list Ranked.section :=
  map (fun entry =>
         section_dict (path_name pdf_path)
           (enhance_section page_text pdf_path (path_name pdf_path) context entry))
    (get_or (sc_outline structured_content) []).

(** What one iteration of the document loop adds to [processed_documents]. *)
Definition kept_document (path_name : string -> string)
    (analyze_pdf : string -> option StructuredContent)
    (page_text : string -> Z -> PageOutcome) (context : Context)
    (pdf_path : string) : list ProcessedDocument :=
  match process_document path_name analyze_pdf page_text context pdf_path with
  | Some document_structure => [document_structure]
  | None => []
  end.

(** A structure extractor that raises on one file and returns a one-entry
    outline for every other file. *)
Definition example_analyze_pdf (pdf_path : string) : option StructuredContent :=
  if String.eqb pdf_path "broken.pdf" then None
  else Some (mkStructured (Some "City Guide")
               (Some [Outline.mk (Some "Nightlife and Entertainment")
                        (Some 1%Z) (Some 1%Z)])).

(** A list of parts whose first part is not empty. *)
Definition starts_nonempty (parts : list string) : Prop :=
  match parts with
  | first :: _ => is_empty first = false
  | [] => False
  end.

(** A non-empty string of ASCII digits: what [(\d+)] captures. *)
Definition is_number (s : string) : bool :=
  negb (is_empty s) && forallb_str is_digit s.

(** The input of the specification's worked example. *)
Definition example_persona : string := "Travel blogger".
Definition example_job : string :=
  "Plan a 4-day trip for a group of 6 college friends to a coastal city, focusing on budget nightlife and food".

(** *** Definitions for the properties of the remaining code *)

(** The structure extractor does not raise on the file. *)
Definition extraction_succeeds (analyze_pdf : string -> option StructuredContent)
    (pdf_path : string) : bool :=
  match analyze_pdf pdf_path with
  | Some _ => true
  | None => false
  end.

(** The test of the block loop that opens the section: the stripped block
    contains the title, or one of the title's words longer than three
    characters, case-insensitively. *)
Definition mentions_title (section_title block : string) : bool :=
  let block_text := strip block in
  occurs_in (lower section_title) (lower block_text)
  || existsb (fun word => occurs_in word (lower block_text))
       (filter (fun word => (3 <? String.length word)%nat)
          (split (lower section_title))).

(** [l] is [l'] with some elements left out, the order kept. *)
Inductive Subseq {A : Type} : list A -> list A -> Prop :=
| Subseq_nil : Subseq [] []
| Subseq_skip (x : A) (l l' : list A) : Subseq l l' -> Subseq l (x :: l')
| Subseq_keep (x : A) (l l' : list A) : Subseq l l' -> Subseq (x :: l) (x :: l').

(** A block that the loop may accept: more than 20 characters and not a
    number. *)
Definition meaningful_block (block_text : string) : bool :=
  (20 <? String.length block_text)%nat && negb (isdigit block_text).

(** The text contains no space character. *)
Definition space_free (s : string) : bool :=
  forallb_str (fun c => negb (Ascii.eqb c " ")) s.

(** The text neither starts nor ends with a whitespace character. *)
Definition no_outer_space (s : string) : bool :=
  match head s with Some c => negb (is_space c) | None => true end
  && match last s with Some c => negb (is_space c) | None => true end.

(** Every whitespace character of the text is the space character. *)
Definition only_plain_spaces (s : string) : bool :=
  forallb_str (fun c => negb (is_space c) || Ascii.eqb c " ") s.

(** * Properties *)

(** ** The scanners on sample texts *)

Example findall_int_sample :
  Re.findall_int "Plan a 4-day trip for 6 friends in room A1, budget 2_000"
  = ["4"; "6"].
Proof. reflexivity. Qed.

Example findall_words_sample :
  Re.findall_words "a beach trip: day2 of the sea-side tour, by car"
  = ["beach"; "trip"; "the"; "sea"; "side"; "tour"; "car"].
Proof. reflexivity. Qed.

Example search_days_sample :
  Re.search (Re.DigitsThen "day") "stay 10 nights, then 12  days or 4-day"
  = Some ["12"]
  /\ Re.search (Re.DigitsThen "day") "a 4-day trip" = None.
Proof. split; reflexivity. Qed.

Example group_size_reads_job_text_only :
  group_size (analyze_persona_job_context "Guide with 9 tours" "A group of 3")
  = Some 3%Z.
Proof. vm_compute. reflexivity. Qed.

Example long_weekend_reads_as_weekend :
  trip_duration
    (analyze_persona_job_context "Student" "A long weekend at the coast")
  = "weekend".
Proof. vm_compute. reflexivity. Qed.

(** ** Loops that append *)

Lemma fold_left_append_map {A B : Type} (f : A -> B) (l : list A) (init : list B) :
  fold_left (fun acc x => acc ++ [f x]) l init = init ++ map f l.
Proof.
  revert init.
  induction l as [|x l IH]; intros init; simpl.
  - now rewrite app_nil_r.
  - rewrite IH, <- app_assoc. reflexivity.
Qed.

Lemma fold_left_pointwise {A B : Type} (f g : B -> A -> B) (l : list A) (init : B) :
  (forall acc x, f acc x = g acc x) -> fold_left f l init = fold_left g l init.
Proof.
  intros H. revert init.
  induction l as [|x l IH]; intros init; simpl; [reflexivity|].
  now rewrite H, IH.
Qed.

Lemma fold_left_append_flat_map {A B : Type} (f : A -> list B) (l : list A)
    (init : list B) :
  fold_left (fun acc x => acc ++ f x) l init = init ++ flat_map f l.
Proof.
  revert init.
  induction l as [|x l IH]; intros init; simpl.
  - now rewrite app_nil_r.
  - rewrite IH, <- app_assoc. reflexivity.
Qed.

Lemma collect_loop_encounter_order (docs : list ProcessedDocument)
    (init : list Ranked.section) :
  fold_left
    (fun all_sections doc =>
       fold_left
         (fun all_sections section =>
            all_sections ++ [section_dict (doc_name doc) section])
         (get_or (doc_outline doc) []) all_sections)
    docs init
  = init ++ encounter_order docs.
Proof.
  revert init.
  induction docs as [|doc docs IH]; intros init; simpl.
  - now rewrite app_nil_r.
  - rewrite IH, fold_left_append_map, <- app_assoc. reflexivity.
Qed.

Lemma collect_sections_encounter_order (docs : list ProcessedDocument) :
  collect_sections docs = encounter_order docs.
Proof. apply collect_loop_encounter_order. Qed.

(** ** The stable sort *)

Lemma insert_desc_perm {A : Type} (key : A -> Q) (x : A) (l : list A) :
  Permutation (insert_desc key x l) (x :: l).
Proof.
  induction l as [|y l IH]; simpl.
  - reflexivity.
  - destruct (Qle_bool (key y) (key x)).
    + reflexivity.
    + rewrite IH. apply perm_swap.
Qed.

Lemma sorted_reverse_perm {A : Type} (key : A -> Q) (l : list A) :
  Permutation (sorted_reverse key l) l.
Proof.
  induction l as [|x l IH]; simpl.
  - reflexivity.
  - rewrite insert_desc_perm. now constructor.
Qed.

Lemma insert_desc_sorted {A : Type} (key : A -> Q) (x : A) (l : list A) :
  StronglySorted (key_ge key) l ->
  StronglySorted (key_ge key) (insert_desc key x l).
Proof.
  induction 1 as [|y l Hl IH Hy]; simpl.
  - repeat constructor.
  - destruct (Qle_bool (key y) (key x)) eqn:E.
    + apply Qle_bool_iff in E.
      constructor; [now constructor|].
      constructor; [exact E|].
      eapply Forall_impl; [|exact Hy].
      intros z Hz. unfold key_ge in *. now apply Qle_trans with (key y).
    + constructor; [exact IH|].
      assert (Hxy : key x <= key y).
      { apply Qlt_le_weak, Qnot_le_lt. intros H.
        apply Qle_bool_iff in H. congruence. }
      eapply Permutation_Forall.
      * symmetry. apply insert_desc_perm.
      * now constructor.
Qed.

Lemma sorted_reverse_sorted {A : Type} (key : A -> Q) (l : list A) :
  StronglySorted (key_ge key) (sorted_reverse key l).
Proof.
  induction l as [|x l IH]; simpl.
  - constructor.
  - now apply insert_desc_sorted.
Qed.

(** Insertion does not disturb the order among elements of equal key. *)
Lemma insert_desc_filter {A : Type} (key : A -> Q) (q : Q) (x : A) (l : list A) :
  filter (fun a => Qeq_bool (key a) q) (insert_desc key x l)
  = filter (fun a => Qeq_bool (key a) q) (x :: l).
Proof.
  induction l as [|y l IH]; [reflexivity|].
  cbn [insert_desc].
  destruct (Qle_bool (key y) (key x)) eqn:E; [reflexivity|].
  cbn [filter] in *. rewrite IH.
  destruct (Qeq_bool (key x) q) eqn:Ex, (Qeq_bool (key y) q) eqn:Ey;
    try reflexivity.
  apply Qeq_bool_iff in Ex, Ey.
  assert (H : Qle_bool (key y) (key x) = true).
  { apply Qle_bool_iff. rewrite Ex, Ey. apply Qle_refl. }
  congruence.
Qed.

Lemma sorted_reverse_filter {A : Type} (key : A -> Q) (q : Q) (l : list A) :
  filter (fun a => Qeq_bool (key a) q) (sorted_reverse key l)
  = filter (fun a => Qeq_bool (key a) q) l.
Proof.
  induction l as [|x l IH]; [reflexivity|].
  cbn [sorted_reverse fold_right].
  rewrite insert_desc_filter. cbn [filter].
  unfold sorted_reverse in IH. now rewrite IH.
Qed.

(** C5. The ranking step returns the sections of all documents sorted by
    decreasing relevance score, and it is stable: for every score, the
    sections with that score appear in the ranking in their encounter
    order (document order, then outline order within a document). *)
Theorem ranking_sorted_descending_and_stable :
  forall (persona_text job_text : string)
         (processed_documents : list ProcessedDocument) (context : Context),
    let ranked_sections :=
      analyze_and_rank_sections persona_text job_text processed_documents
        context in
    StronglySorted score_ge ranked_sections
    /\ Permutation ranked_sections (encounter_order processed_documents)
    /\ forall q : Q,
         with_score q ranked_sections
         = with_score q (encounter_order processed_documents).
Proof.
  intros persona_text job_text docs context.
  unfold analyze_and_rank_sections.
  rewrite collect_sections_encounter_order.
  cbv zeta.
  split; [apply sorted_reverse_sorted|].
  split; [apply sorted_reverse_perm|].
  intros q. apply sorted_reverse_filter.
Qed.

(** ** The output assembler *)


Lemma map_snd_enumerate {A : Type} (l : list A) (start : Z) :
  map snd (enumerate start l) = l.
Proof.
  revert start.
  induction l as [|x l IH]; intros start; simpl; [reflexivity|].
  now rewrite IH.
Qed.


(** ** The worked example of the context analyzer *)

(** C2.  The code evaluated on the input of the worked example.  The
    analyzer yields content_creator, group, young_adult, budget and the
    preferences nightlife and culinary, as the example says; but it
    records the group size 4 where the text states a group of 6, and the
    trip duration "unknown" where the text states a 4-day trip: the group
    size is taken from the first integer of the job text, which is the 4
    of "4-day", and the day pattern allows only whitespace between the
    number and "day", so it misses the hyphenated "4-day". *)
Theorem example_context_computed :
  analyze_persona_job_context example_persona example_job
  = {| persona_type := content_creator;
       group_type := group;
       group_size := Some 4%Z;
       trip_duration := "unknown";
       age_group := young_adult;
       budget_level := budget;
       activity_preferences := [nightlife; culinary];
       special_requirements := [] |}.
Proof. vm_compute. reflexivity. Qed.

(** The context of the worked example is not the one the example states:
    the code does not produce group_size 6 and trip_duration "4_days". *)
Lemma example_context_not_as_claimed :
  let context := analyze_persona_job_context example_persona example_job in
  ~ (persona_type context = content_creator
     /\ group_type context = group
     /\ group_size context = Some 6%Z
     /\ age_group context = young_adult
     /\ trip_duration context = "4_days"
     /\ budget_level context = budget
     /\ In nightlife (activity_preferences context)
     /\ In culinary (activity_preferences context)).
Proof.
  vm_compute. intros (_ & _ & H & _). discriminate H.
Qed.

(** ** Facts about text *)

Lemma prefix_split (a s : string) :
  prefix a s = true -> exists r, s = (a ++ r)%string.
Proof.
  revert s.
  induction a as [|c a IH]; intros s H.
  - now exists s.
  - destruct s as [|c' s]; simpl in H; [discriminate|].
    destruct (ascii_dec c c') as [->|]; [|discriminate].
    destruct (IH _ H) as [r ->]. now exists r.
Qed.

Lemma append_assoc (a b c : string) :
  ((a ++ b) ++ c = a ++ (b ++ c))%string.
Proof. induction a as [|x a IH]; simpl; [reflexivity|now rewrite IH]. Qed.

Lemma prefix_append (a r : string) : prefix a (a ++ r) = true.
Proof.
  induction a as [|c a IH]; simpl.
  - now destruct r.
  - destruct (ascii_dec c c); [exact IH|congruence].
Qed.

Lemma occurs_in_prefix (a s : string) : prefix a s = true -> occurs_in a s = true.
Proof. intros H. destruct s; cbn [occurs_in]; rewrite H; reflexivity. Qed.

Lemma occurs_in_tail (a : string) (c : ascii) (s : string) :
  occurs_in a s = true -> occurs_in a (String c s) = true.
Proof. intros H. cbn [occurs_in]. rewrite H. apply orb_true_r. Qed.

Lemma occurs_in_append_l (b a t : string) :
  occurs_in b t = true -> occurs_in b (a ++ t) = true.
Proof.
  intros H. induction a as [|c a IH]; [exact H|].
  simpl String.append. now apply occurs_in_tail.
Qed.

Lemma prefix_occurs_in_suffix (a b s : string) :
  prefix (a ++ b) s = true -> occurs_in b s = true.
Proof.
  intros H. apply prefix_split in H. destruct H as [r ->].
  rewrite append_assoc.
  apply occurs_in_append_l, occurs_in_prefix, prefix_append.
Qed.

(** A text that contains [a ++ b] contains [b]. *)
Lemma occurs_in_suffix (a b s : string) :
  occurs_in (a ++ b) s = true -> occurs_in b s = true.
Proof.
  induction s as [|c s IH]; intros H; cbn [occurs_in] in H;
    apply orb_true_iff in H; destruct H as [H|H]; try discriminate.
  - now apply prefix_occurs_in_suffix with (a := a).
  - now apply prefix_occurs_in_suffix with (a := a).
  - apply occurs_in_tail, IH, H.
Qed.

Lemma span_spec (p : ascii -> bool) (s a b : string) :
  span p s = (a, b) -> forallb_str p a = true /\ s = (a ++ b)%string.
Proof.
  revert a b.
  induction s as [|c s IH]; intros a b H; simpl in H.
  - inversion H. now split.
  - destruct (p c) eqn:Hc.
    + destruct (span p s) as [a' b'] eqn:Hs. inversion H; subst.
      destruct (IH _ _ eq_refl) as [Ha Hb].
      split; simpl; [now rewrite Hc|now rewrite <- Hb].
    + inversion H. now split.
Qed.

Lemma is_number_head_digit (n rest : string) :
  is_number n = true ->
  exists c t, (n ++ rest)%string = String c t /\ is_digit c = true.
Proof.
  unfold is_number. destruct n as [|c n]; simpl; [discriminate|].
  intros H. apply andb_true_iff in H. destruct H as [Hc _].
  now exists c, (n ++ rest)%string.
Qed.

(** ** Facts about the regular expressions *)

(** Searching a literal is the substring test. *)
Lemma search_literal (word s : string) :
  Re.search (Re.Literal word) s
  = if occurs_in word s then Some [] else None.
Proof.
  induction s as [|c s IH]; cbn [Re.search Re.match_here occurs_in].
  - destruct (prefix word ""); reflexivity.
  - destruct (prefix word (String c s)); [reflexivity|].
    rewrite IH. reflexivity.
Qed.

(** A match of [(\d+)\s*<word>s?] captures one group, a number. *)
Lemma match_here_digits (word s : string) (groups : list string) :
  Re.match_here (Re.DigitsThen word) s = Some groups ->
  exists digits, groups = [digits] /\ is_number digits = true.
Proof.
  cbn [Re.match_here].
  destruct (span is_digit s) as [digits r1] eqn:Hd.
  destruct (span is_space r1) as [ws r2].
  destruct (negb (is_empty digits) && prefix word r2) eqn:E; [|discriminate].
  intros H. inversion H. exists digits. split; [reflexivity|].
  apply andb_true_iff in E. destruct E as [E _].
  unfold is_number. rewrite E.
  now destruct (span_spec _ _ _ _ Hd) as [-> _].
Qed.

Lemma search_digits (word s : string) (groups : list string) :
  Re.search (Re.DigitsThen word) s = Some groups ->
  exists digits, groups = [digits] /\ is_number digits = true.
Proof.
  induction s as [|c s IH]; cbn [Re.search];
    destruct (Re.match_here (Re.DigitsThen word) _) eqn:E; intros H;
    try discriminate;
    try (inversion H; subst; eapply match_here_digits, E).
  now apply IH.
Qed.

(** Every text that contains "long weekend" is matched by the pattern
    "weekend", which the loop tries first. *)
Lemma weekend_shadows_long_weekend (s : string) :
  Re.search (Re.Literal "long weekend") s <> None ->
  Re.search (Re.Literal "weekend") s <> None.
Proof.
  rewrite !search_literal.
  destruct (occurs_in "long weekend" s) eqn:E; [|congruence].
  intros _.
  now rewrite (occurs_in_suffix "long " "weekend" s E).
Qed.

Lemma trip_duration_analyze (persona_text job_text : string) :
  trip_duration (analyze_persona_job_context persona_text job_text)
  = scan_durations duration_patterns
      (lower (persona_text ++ " " ++ job_text)) "unknown".
Proof.
  unfold analyze_persona_job_context.
  destruct (occurs_in "group" _); reflexivity.
Qed.

(** C10. The context analyzer never yields the trip duration
    "long_weekend": the result is "unknown", a number followed by "_days"
    or by "_weeks", or "weekend". *)
Theorem trip_duration_never_long_weekend :
  forall persona_text job_text : string,
    let duration :=
      trip_duration (analyze_persona_job_context persona_text job_text) in
    duration <> "long_weekend"
    /\ (duration = "unknown"
        \/ (exists n, is_number n = true /\ duration = (n ++ "_days")%string)
        \/ (exists n, is_number n = true /\ duration = (n ++ "_weeks")%string)
        \/ duration = "weekend").
Proof.
  intros persona_text job_text. cbv zeta.
  rewrite trip_duration_analyze.
  generalize (lower (persona_text ++ " " ++ job_text)) as combined_text.
  intros combined_text.
  assert (Hnum : forall n rest, is_number n = true ->
                                (n ++ rest)%string <> "long_weekend").
  { intros n rest Hn E.
    destruct (is_number_head_digit n rest Hn) as (c & t & Ht & Hc).
    rewrite Ht in E. inversion E; subst. discriminate Hc. }
  unfold duration_patterns. cbn [scan_durations].
  destruct (Re.search (Re.DigitsThen "day") combined_text) as [g|] eqn:Ed.
  { destruct (search_digits _ _ _ Ed) as (n & -> & Hn).
    cbn. split; [now apply Hnum|]. right; left. now exists n. }
  destruct (Re.search (Re.DigitsThen "week") combined_text) as [g|] eqn:Ew.
  { destruct (search_digits _ _ _ Ew) as (n & -> & Hn).
    cbn. split; [now apply Hnum|]. right; right; left. now exists n. }
  destruct (Re.search (Re.Literal "weekend") combined_text) as [g|] eqn:Ee.
  { cbn. split; [discriminate|]. now repeat right. }
  destruct (Re.search (Re.Literal "long weekend") combined_text) as [g|] eqn:El.
  { exfalso. apply (weekend_shadows_long_weekend combined_text); congruence. }
  split; [discriminate|]. now left.
Qed.

(** Every string returned by [findall_from] was returned by the matcher at
    some position of the text. *)
Lemma findall_from_In (m : option ascii -> string -> option string)
    (P : string -> Prop) (w : string) :
  (forall prev s, m prev s = Some w -> P s) ->
  forall s prev skip,
    In w (Re.findall_from m prev skip s) ->
    exists pre post, s = (pre ++ post)%string /\ P post.
Proof.
  intros Hm.
  induction s as [|c s IH]; intros prev skip H; cbn [Re.findall_from] in H.
  - destruct H.
  - assert (Hrec : forall prev' skip',
               In w (Re.findall_from m prev' skip' s) ->
               exists pre post, String c s = (pre ++ post)%string /\ P post).
    { intros prev' skip' H'.
      destruct (IH _ _ H') as (pre & post & -> & Hp).
      now exists (String c pre), post. }
    destruct skip as [|k]; [|now apply Hrec in H].
    destruct (m prev (String c s)) as [w'|] eqn:E; [|now apply Hrec in H].
    destruct H as [->|H]; [|now apply Hrec in H].
    exists "", (String c s). split; [reflexivity|]. now apply Hm with prev.
Qed.

Lemma match_bounded_run_spec (cls : ascii -> bool) (min : nat)
    (prev : option ascii) (s w : string) :
  Re.match_bounded_run cls min prev s = Some w ->
  forallb_str cls w = true /\ (min <= String.length w)%nat
  /\ prefix w s = true.
Proof.
  unfold Re.match_bounded_run.
  destruct (span cls s) as [run rest] eqn:Hs.
  destruct (span_spec _ _ _ _ Hs) as [Hall ->].
  destruct ((min <=? String.length run)%nat && _ && _) eqn:E; [|discriminate].
  intros H. inversion H; subst.
  apply andb_true_iff in E. destruct E as [E _].
  apply andb_true_iff in E. destruct E as [E _].
  apply Nat.leb_le in E.
  repeat split; try assumption. apply prefix_append.
Qed.








(** ** The relevance scorer *)

Lemma py_min_compat (a a' b : Q) : a == a' -> py_min a b == py_min a' b.
Proof.
  intros H. unfold py_min.
  destruct (Qle_bool a b) eqn:E, (Qle_bool a' b) eqn:E';
    try assumption; try reflexivity.
  - apply Qle_bool_iff in E. rewrite H in E. apply Qle_bool_iff in E. congruence.
  - apply Qle_bool_iff in E'. rewrite <- H in E'. apply Qle_bool_iff in E'.
    congruence.
Qed.

Lemma py_min_bounds (a b : Q) : 0 <= a -> 0 <= b -> 0 <= py_min a b <= b.
Proof.
  intros Ha Hb. unfold py_min.
  destruct (Qle_bool a b) eqn:E.
  - apply Qle_bool_iff in E. now split.
  - split; [exact Hb|apply Qle_refl].
Qed.

Lemma Qsum_cons (q : Q) (l : list Q) : Qsum (q :: l) = q + Qsum l.
Proof. reflexivity. Qed.

Lemma Qsum_nil : Qsum [] = 0.
Proof. reflexivity. Qed.

Lemma Qsum_nonneg (l : list Q) : Forall (fun q => 0 <= q) l -> 0 <= Qsum l.
Proof.
  unfold Qsum. induction 1 as [|q l Hq _ IH]; simpl; [apply Qle_refl|].
  lra.
Qed.

Lemma Zsum_nonneg (l : list Z) : Forall (fun z => (0 <= z)%Z) l -> (0 <= Zsum l)%Z.
Proof. unfold Zsum. induction 1 as [|z l Hz _ IH]; simpl; lia. Qed.

(** The loop over the tokens adds up their table weights. *)
Lemma keyword_score_loop (words : list string) (acc : Z) :
  fold_left
    (fun keyword_score word =>
       match Dict.get word travel_keywords with
       | Some weight => (keyword_score + weight)%Z
       | None => keyword_score
       end)
    words acc
  = (acc + Zsum (map table_weight words))%Z.
Proof.
  revert acc.
  induction words as [|w words IH]; intros acc; cbn [fold_left map].
  - unfold Zsum. cbn [fold_right]. lia.
  - rewrite IH. change (Zsum (table_weight w :: map table_weight words))
      with (table_weight w + Zsum (map table_weight words))%Z.
    unfold table_weight at 2. unfold get_or.
    destruct (Dict.get w travel_keywords); lia.
Qed.

Lemma keyword_score_of_sum (words : list string) :
  keyword_score_of words = Zsum (map table_weight words).
Proof. unfold keyword_score_of. now rewrite keyword_score_loop. Qed.

(** The loop over the pattern definitions adds hits x multiplier x 5 for
    each of them; its guard only skips additions of zero. *)
Lemma pattern_bonus_loop (full_text : string) (patterns : list ContentPattern)
    (acc : Q) :
  fold_left
    (fun pattern_bonus info =>
       let pattern_matches := pattern_matches_of full_text info in
       if (0 <? pattern_matches)%nat
       then pattern_bonus
            + inject_Z (Z.of_nat pattern_matches) * weight_multiplier info * 5
       else pattern_bonus)
    patterns acc
  == acc
     + Qsum (map (fun info =>
                    inject_Z (Z.of_nat (spec_hits full_text info))
                    * weight_multiplier info * 5)
               patterns).
Proof.
  revert acc.
  induction patterns as [|info patterns IH]; intros acc;
    cbn [fold_left map]; rewrite ?Qsum_cons, ?Qsum_nil.
  - ring.
  - rewrite IH. cbv zeta. unfold spec_hits, pattern_matches_of.
    destruct (List.length _) as [|n] eqn:E; cbn [Nat.ltb Nat.leb].
    + change (inject_Z (Z.of_nat 0)) with 0. ring.
    + ring.
Qed.

Lemma pattern_bonus_of_sum (full_text : string) :
  pattern_bonus_of full_text == spec_pattern_bonus full_text.
Proof.
  unfold pattern_bonus_of, spec_pattern_bonus.
  rewrite pattern_bonus_loop. ring.
Qed.

Lemma preference_step_bonus (full_text : string) (m : Q) (a : Activity) :
  preference_step full_text m a
  == m + bonus_if (any_in (preference_cues a) full_text) 0.2.
Proof.
  unfold preference_step, bonus_if.
  destruct a; cbn [Activity_eqb preference_cues andb];
    try change (any_in [] full_text) with false;
    repeat match goal with
           | |- context [if any_in ?l ?t then _ else _] => destruct (any_in l t)
           end; cbv iota; ring.
Qed.

Lemma preference_loop (full_text : string) (preferences : list Activity) (m : Q) :
  fold_left (preference_step full_text) preferences m
  == m + Qsum (map (fun preference =>
                      bonus_if (any_in (preference_cues preference) full_text) 0.2)
                 preferences).
Proof.
  revert m.
  induction preferences as [|a preferences IH]; intros m;
    cbn [fold_left map]; rewrite ?Qsum_cons, ?Qsum_nil.
  - ring.
  - rewrite IH, preference_step_bonus. ring.
Qed.

Lemma context_multiplier_of_sum (full_text : string) (context : Context) :
  context_multiplier_of full_text context
  == spec_context_multiplier full_text context.
Proof.
  unfold context_multiplier_of, spec_context_multiplier.
  rewrite preference_loop.
  unfold is_persona, is_group, is_age, is_budget, bonus_if.
  generalize (Qsum (map (fun preference =>
                           bonus_if (any_in (preference_cues preference) full_text)
                             0.2)
                      (activity_preferences context))) as rest.
  intros rest.
  destruct (persona_type context), (group_type context), (age_group context),
    (budget_level context); cbn [andb];
    repeat match goal with
           | |- context [if any_in ?l ?t then _ else _] => destruct (any_in l t)
           end; ring.
Qed.

(** Every weight of the keyword table is non-negative. *)
Lemma dict_get_In {V : Type} (k : string) (d : Dict.dict V) (v : V) :
  Dict.get k d = Some v -> In v (map snd d).
Proof.
  induction d as [|[k' v'] d IH]; simpl; [discriminate|].
  destruct (String.eqb k k').
  - intros H. inversion H. now left.
  - intros H. right. now apply IH.
Qed.

Lemma table_weight_nonneg (token : string) : (0 <= table_weight token)%Z.
Proof.
  unfold table_weight, get_or.
  destruct (Dict.get token travel_keywords) as [v|] eqn:E; [|lia].
  apply dict_get_In in E.
  assert (H : forallb (Z.leb 0) (map snd travel_keywords) = true)
    by (vm_compute; reflexivity).
  rewrite forallb_forall in H. apply Z.leb_le. now apply H.
Qed.

Lemma spec_base_score_nonneg (tokens : list string) : 0 <= spec_base_score tokens.
Proof.
  unfold spec_base_score.
  assert (Hs : (0 <= Zsum (map table_weight tokens))%Z).
  { apply Zsum_nonneg, Forall_forall. intros z Hz.
    apply in_map_iff in Hz. destruct Hz as (t & <- & _).
    apply table_weight_nonneg. }
  assert (Hn : (0 <= Z.of_nat (List.length tokens))%Z) by lia.
  apply Qmult_le_0_compat; [|discriminate].
  apply Qmult_le_0_compat.
  - change 0 with (inject_Z 0). now rewrite <- Zle_Qle.
  - apply Qinv_le_0_compat. change 0 with (inject_Z 0). now rewrite <- Zle_Qle.
Qed.

Lemma spec_pattern_bonus_nonneg (full_text : string) :
  0 <= spec_pattern_bonus full_text.
Proof.
  unfold spec_pattern_bonus.
  apply Qsum_nonneg, Forall_forall. intros q Hq.
  apply in_map_iff in Hq. destruct Hq as (info & <- & Hin).
  assert (Hw : forallb (fun i => Qle_bool 0 (weight_multiplier i))
                 content_patterns = true) by (vm_compute; reflexivity).
  rewrite forallb_forall in Hw. specialize (Hw info Hin).
  apply Qle_bool_iff in Hw.
  apply Qmult_le_0_compat; [|discriminate].
  apply Qmult_le_0_compat; [|exact Hw].
  change 0 with (inject_Z 0). rewrite <- Zle_Qle. lia.
Qed.

Lemma bonus_if_nonneg (applies : bool) (amount : Q) :
  0 <= amount -> 0 <= bonus_if applies amount.
Proof. intros H. unfold bonus_if. destruct applies; [exact H|apply Qle_refl]. Qed.

Lemma spec_context_multiplier_ge_1 (full_text : string) (context : Context) :
  1 <= spec_context_multiplier full_text context.
Proof.
  unfold spec_context_multiplier.
  assert (Hs : 0 <= Qsum (map (fun preference =>
                                 bonus_if (any_in (preference_cues preference)
                                             full_text) 0.2)
                            (activity_preferences context))).
  { apply Qsum_nonneg, Forall_forall. intros q Hq.
    apply in_map_iff in Hq. destruct Hq as (a & <- & _).
    apply bonus_if_nonneg. discriminate. }
  repeat match goal with
         | |- context [bonus_if ?b ?a] =>
             let H := fresh "Hb" in
             assert (H : 0 <= bonus_if b a) by (apply bonus_if_nonneg; discriminate);
             generalize dependent (bonus_if b a); intros
         end.
  lra.
Qed.

(** The score before the cap, as the program computes it, equals the
    specification's formula. *)
Lemma final_score_sum (text title : string) (context : Context) :
  let full_text := full_text_of text title in
  let words := tokens_of text title in
  (inject_Z (keyword_score_of words) / inject_Z (Z.of_nat (List.length words)) * 10
   + pattern_bonus_of full_text)
  * context_multiplier_of full_text context
  == (spec_base_score words + spec_pattern_bonus full_text)
     * spec_context_multiplier full_text context.
Proof.
  cbv zeta.
  rewrite keyword_score_of_sum, pattern_bonus_of_sum, context_multiplier_of_sum.
  reflexivity.
Qed.

(** The program's result in terms of its tokens. *)
Lemma calculate_dynamic_relevance_unfold (text title : string)
    (context : Context) (document_name : string) (page_num : Z) :
  calculate_dynamic_relevance text title context document_name page_num
  = match tokens_of text title with
    | [] => 0.0
    | _ :: _ =>
        py_min
          ((inject_Z (keyword_score_of (tokens_of text title))
            / inject_Z (Z.of_nat (List.length (tokens_of text title))) * 10
            + pattern_bonus_of (full_text_of text title))
           * context_multiplier_of (full_text_of text title) context)
          100.0
    end.
Proof.
  unfold calculate_dynamic_relevance, tokens_of, full_text_of.
  destruct (is_empty text && is_empty title) eqn:E; [|reflexivity].
  apply andb_true_iff in E. destruct E as [E1 E2].
  destruct text; [|discriminate]. destruct title; [|discriminate].
  reflexivity.
Qed.

(** C3. When the text has at least one token, the relevance score is
    ((sum of the tokens' table weights / number of tokens) x 10 + pattern
    bonus) x context multiplier, capped at 100, where the pattern bonus
    sums hits x multiplier x 5 over all pattern definitions and the context
    multiplier is 1.0 plus every applicable context bonus. *)
Theorem relevance_score_formula :
  forall (text title : string) (context : Context) (document_name : string)
         (page_num : Z),
    tokens_of text title <> [] ->
    calculate_dynamic_relevance text title context document_name page_num
    == spec_relevance text title context.
Proof.
  intros text title context document_name page_num Hne.
  rewrite calculate_dynamic_relevance_unfold.
  destruct (tokens_of text title) as [|w ws] eqn:E; [congruence|].
  unfold spec_relevance. cbv zeta. rewrite <- E.
  change (capped 100.0 ?x) with (py_min x 100.0).
  apply py_min_compat, final_score_sum.
Qed.

Lemma relevance_score_formula_witness :
  tokens_of "Budget Nightlife Tips" "Budget Nightlife Tips" <> []
  /\ calculate_dynamic_relevance "Budget Nightlife Tips" "Budget Nightlife Tips"
       (analyze_persona_job_context example_persona example_job) "guide.pdf" 3
     == spec_relevance "Budget Nightlife Tips" "Budget Nightlife Tips"
          (analyze_persona_job_context example_persona example_job).
Proof.
  assert (H : tokens_of "Budget Nightlife Tips" "Budget Nightlife Tips" <> [])
    by (vm_compute; discriminate).
  split; [exact H|].
  apply (relevance_score_formula "Budget Nightlife Tips" "Budget Nightlife Tips"
           (analyze_persona_job_context example_persona example_job)
           "guide.pdf" 3 H).
Defined.

(** C4. The relevance score always lies between 0 and 100; a text that
    repeats the highest-weight keywords, whose average weight alone would
    give 200, scores exactly 100. *)
Theorem relevance_score_bounds :
  (forall (text title : string) (context : Context) (document_name : string)
          (page_num : Z),
      0 <= calculate_dynamic_relevance text title context document_name page_num
      <= 100)
  /\ calculate_dynamic_relevance "planning group planning group"
       "planning group planning group" default_context "" 0 == 100.
Proof.
  split; [|vm_compute; reflexivity].
  intros text title context document_name page_num.
  rewrite calculate_dynamic_relevance_unfold.
  destruct (tokens_of text title) as [|w ws] eqn:E.
  - split; discriminate.
  - rewrite <- E.
    assert (Hf : 0 <= (spec_base_score (tokens_of text title)
                       + spec_pattern_bonus (full_text_of text title))
                      * spec_context_multiplier (full_text_of text title) context).
    { pose proof (spec_base_score_nonneg (tokens_of text title)).
      pose proof (spec_pattern_bonus_nonneg (full_text_of text title)).
      pose proof (spec_context_multiplier_ge_1 (full_text_of text title) context).
      apply Qmult_le_0_compat; lra. }
    rewrite <- (final_score_sum text title context) in Hf. cbv zeta in Hf.
    destruct (py_min_bounds _ 100.0 Hf) as [H0 H1]; [discriminate|].
    split; [exact H0|].
    eapply Qle_trans; [exact H1|]. discriminate.
Qed.

(** ** Sections without keyword hits *)

Lemma no_keyword_token_sum (text title : string) :
  no_keyword_token text title = true ->
  Zsum (map table_weight (tokens_of text title)) = 0%Z.
Proof.
  unfold no_keyword_token.
  induction (tokens_of text title) as [|w ws IH]; cbn [forallb map];
    [reflexivity|].
  intros H. apply andb_true_iff in H. destruct H as [Hw Hws].
  change (Zsum (table_weight w :: map table_weight ws))
    with (table_weight w + Zsum (map table_weight ws))%Z.
  rewrite (IH Hws). unfold table_weight, get_or.
  unfold Dict.mem in Hw.
  destruct (Dict.get w travel_keywords); [discriminate|reflexivity].
Qed.

Lemma no_phrase_no_hits (full_text : string) (phrases : list string) :
  forallb (fun keyword => negb (occurs_in keyword full_text)) phrases = true ->
  filter (fun phrase => occurs_in phrase full_text) phrases = [].
Proof.
  induction phrases as [|p phrases IH]; cbn [forallb filter]; [reflexivity|].
  intros H. apply andb_true_iff in H. destruct H as [Hp Hps].
  destruct (occurs_in p full_text); [discriminate|]. now apply IH.
Qed.

Lemma no_pattern_phrase_sum (text title : string) :
  no_pattern_phrase text title = true ->
  spec_pattern_bonus (full_text_of text title) == 0.
Proof.
  unfold no_pattern_phrase, spec_pattern_bonus.
  induction content_patterns as [|info patterns IH]; cbn [forallb map];
    rewrite ?Qsum_cons, ?Qsum_nil; [reflexivity|].
  intros H. apply andb_true_iff in H. destruct H as [Hi Hp].
  rewrite (IH Hp). unfold spec_hits.
  rewrite (no_phrase_no_hits _ _ Hi).
  change (inject_Z (Z.of_nat (List.length (@nil string)))) with 0. ring.
Qed.

(** C1, as the code behaves.  A text none of whose tokens is in the keyword
    table and in which no phrase of a content pattern occurs scores 0 in
    every context. *)
Theorem no_keyword_no_pattern_scores_zero :
  forall (text title : string),
    no_keyword_token text title = true ->
    no_pattern_phrase text title = true ->
    forall (context : Context) (document_name : string) (page_num : Z),
      calculate_dynamic_relevance text title context document_name page_num == 0.
Proof.
  intros text title Hk Hp context document_name page_num.
  rewrite calculate_dynamic_relevance_unfold.
  destruct (tokens_of text title) as [|w ws] eqn:E; [reflexivity|].
  rewrite <- E.
  assert (Hf : (spec_base_score (tokens_of text title)
                + spec_pattern_bonus (full_text_of text title))
               * spec_context_multiplier (full_text_of text title) context
               == 0).
  { rewrite (no_pattern_phrase_sum _ _ Hp). unfold spec_base_score.
    rewrite (no_keyword_token_sum _ _ Hk).
    change (inject_Z 0) with 0. unfold Qdiv. ring. }
  rewrite <- (final_score_sum text title context) in Hf. cbv zeta in Hf.
  rewrite (py_min_compat _ 0 100.0 Hf). reflexivity.
Qed.

Lemma no_keyword_no_pattern_scores_zero_witness :
  no_keyword_token "Local Museums" "Local Museums" = true
  /\ no_pattern_phrase "Local Museums" "Local Museums" = true
  /\ calculate_dynamic_relevance "Local Museums" "Local Museums"
       (analyze_persona_job_context example_persona example_job) "city.pdf" 2
     == 0.
Proof.
  assert (Hk : no_keyword_token "Local Museums" "Local Museums" = true)
    by (vm_compute; reflexivity).
  assert (Hp : no_pattern_phrase "Local Museums" "Local Museums" = true)
    by (vm_compute; reflexivity).
  split; [exact Hk|]. split; [exact Hp|].
  apply (no_keyword_no_pattern_scores_zero "Local Museums" "Local Museums" Hk Hp).
Defined.

(** C1 as stated fails: the title "Overview" has no token in the keyword
    table, yet it scores 7.5, because "overview" is a phrase of a content
    pattern. *)
Lemma no_keyword_token_scores_nonzero :
  no_keyword_token "Overview" "Overview" = true
  /\ ~ calculate_dynamic_relevance "Overview" "Overview" default_context
        "guide.pdf" 1 == 0.
Proof.
  split; [vm_compute; reflexivity|].
  vm_compute. discriminate.
Qed.

(** ** The content synthesizer *)

Lemma starts_nonempty_app (l l' : list string) :
  starts_nonempty l -> starts_nonempty (l ++ l').
Proof. destruct l; [intros []|intros H; exact H]. Qed.

Lemma starts_nonempty_append_if (cond : bool) (part : string) (l : list string) :
  starts_nonempty l -> starts_nonempty (append_if cond part l).
Proof.
  intros H. unfold append_if. destruct cond; [|exact H].
  now apply starts_nonempty_app.
Qed.

Lemma join_starts_nonempty (sep : string) (parts : list string) :
  starts_nonempty parts -> join sep parts <> "".
Proof.
  destruct parts as [|first rest]; [intros []|].
  cbn [starts_nonempty join]. intros H.
  destruct first as [|c first]; [discriminate|].
  destruct rest; discriminate.
Qed.

(** Every branch of the fallback starts with a sentence of its own. *)
Lemma section_parts_starts_nonempty (section_type : SectionType)
    (section_title title_lower : string) (context : Context) :
  starts_nonempty (section_parts section_type section_title title_lower context).
Proof.
  destruct section_type; unfold section_parts; cbv zeta;
    try destruct (budget_level context);
    repeat first [ reflexivity
                 | apply starts_nonempty_append_if
                 | apply starts_nonempty_app ].
Qed.

Lemma closing_parts_starts_nonempty (context : Context) (parts : list string) :
  starts_nonempty parts -> starts_nonempty (closing_parts context parts).
Proof.
  intros H. unfold closing_parts. cbv zeta.
  repeat match goal with
         | |- context [if ?b then _ else _] => destruct b
         end; try apply starts_nonempty_app; exact H.
Qed.

Lemma fallback_nonempty (section_title pdf_path : string)
    (context : Context) :
  _generate_dynamic_fallback section_title pdf_path context <> "".
Proof.
  unfold _generate_dynamic_fallback. cbv zeta.
  apply join_starts_nonempty, closing_parts_starts_nonempty,
    section_parts_starts_nonempty.
Qed.

(** C7. Whatever the page-text provider does, the content synthesizer
    returns a non-empty string, for every section title (the empty title
    included) and every context; when the provider raises or the page is
    out of range the result is the fallback text, which is never empty. *)
Theorem content_synthesizer_never_empty :
  forall (page_text : string -> Z -> PageOutcome) (pdf_path : string)
         (page_num : Z) (section_title : string) (context : Context),
    let content :=
      extract_dynamic_content page_text pdf_path page_num section_title context in
    let fallback := _generate_dynamic_fallback section_title pdf_path context in
    content <> ""
    /\ fallback <> ""
    /\ (page_text pdf_path page_num = ProviderRaises
        \/ page_text pdf_path page_num = PageOutOfRange ->
        content = fallback).
Proof.
  intros page_text pdf_path page_num section_title context content fallback.
  pose proof (fallback_nonempty section_title pdf_path context)
    as Hf.
  split; [|split; [exact Hf|]].
  - unfold content, extract_dynamic_content.
    destruct (page_text pdf_path page_num) as [| |text_blocks]; try exact Hf.
    cbv zeta.
    destruct (scan_blocks _ _ _ _ _) as [|b bs]; [exact Hf|].
    destruct (String.length (normalize_content (b :: bs)) <? 100)%nat eqn:E;
      [exact Hf|].
    intros H. rewrite H in E. discriminate E.
  - unfold content, extract_dynamic_content.
    intros [H|H]; rewrite H; reflexivity.
Qed.

Lemma content_synthesizer_never_empty_witness :
  extract_dynamic_content (fun _ _ => ProviderRaises) "guide.pdf" 4
    "Nightlife and Entertainment"
    (analyze_persona_job_context example_persona example_job)
  = _generate_dynamic_fallback "Nightlife and Entertainment" "guide.pdf"
      (analyze_persona_job_context example_persona example_job)
  /\ extract_dynamic_content (fun _ _ => ProviderRaises) "guide.pdf" 4
       "Nightlife and Entertainment"
       (analyze_persona_job_context example_persona example_job)
     <> "".
Proof.
  destruct (content_synthesizer_never_empty (fun _ _ => ProviderRaises)
              "guide.pdf" 4 "Nightlife and Entertainment"
              (analyze_persona_job_context example_persona example_job))
    as (Hne & _ & Hfall).
  split; [apply Hfall; left; reflexivity|exact Hne].
Defined.

(** ** Partial failure of the document loop *)

(** The documents kept by the loop: one per file whose extraction did not
    raise, in file order. *)
Lemma process_documents_flat_map (path_name : string -> string)
    (analyze_pdf : string -> option StructuredContent)
    (page_text : string -> Z -> PageOutcome) (context : Context)
    (pdf_files : list string) :
  process_documents_dynamic path_name analyze_pdf page_text pdf_files context
  = flat_map (kept_document path_name analyze_pdf page_text context) pdf_files.
Proof.
  unfold process_documents_dynamic.
  rewrite (fold_left_pointwise _
             (fun acc pdf_path =>
                acc ++ kept_document path_name analyze_pdf page_text context
                         pdf_path)).
  - now rewrite fold_left_append_flat_map.
  - intros acc pdf_path. unfold kept_document.
    destruct (process_document _ _ _ _ _); [reflexivity|].
    now rewrite app_nil_r.
Qed.

Lemma process_documents_app (path_name : string -> string)
    (analyze_pdf : string -> option StructuredContent)
    (page_text : string -> Z -> PageOutcome) (context : Context)
    (l1 l2 : list string) :
  process_documents_dynamic path_name analyze_pdf page_text (l1 ++ l2) context
  = process_documents_dynamic path_name analyze_pdf page_text l1 context
    ++ process_documents_dynamic path_name analyze_pdf page_text l2 context.
Proof. rewrite !process_documents_flat_map. apply flat_map_app. Qed.

(** A file is kept exactly when its extraction does not raise, and then it
    contributes the ranked-section records of its outline. *)
Lemma kept_document_sections (path_name : string -> string)
    (analyze_pdf : string -> option StructuredContent)
    (page_text : string -> Z -> PageOutcome) (context : Context)
    (pdf_path : string) :
  encounter_order (kept_document path_name analyze_pdf page_text context pdf_path)
  = match analyze_pdf pdf_path with
    | Some structured_content =>
        scored_sections path_name page_text context pdf_path structured_content
    | None => []
    end.
Proof.
  unfold kept_document, process_document.
  destruct (analyze_pdf pdf_path) as [structured_content|]; [|reflexivity].
  unfold encounter_order, scored_sections.
  cbn [flat_map doc_name doc_outline get_or].
  rewrite app_nil_r, fold_left_append_map. cbn [app].
  rewrite map_map. reflexivity.
Qed.

Lemma encounter_order_flat_map {X : Type} (f : X -> list ProcessedDocument)
    (l : list X) :
  encounter_order (flat_map f l) = flat_map (fun x => encounter_order (f x)) l.
Proof.
  unfold encounter_order.
  induction l as [|x l IH]; cbn [flat_map]; [reflexivity|].
  now rewrite flat_map_app, IH.
Qed.

Lemma encounter_order_process (path_name : string -> string)
    (analyze_pdf : string -> option StructuredContent)
    (page_text : string -> Z -> PageOutcome) (context : Context)
    (pdf_files : list string) (s : Ranked.section) :
  In s (encounter_order
          (process_documents_dynamic path_name analyze_pdf page_text pdf_files
             context))
  <-> exists pdf_path structured_content,
        In pdf_path pdf_files
        /\ analyze_pdf pdf_path = Some structured_content
        /\ In s (scored_sections path_name page_text context pdf_path
                   structured_content).
Proof.
  rewrite process_documents_flat_map, encounter_order_flat_map, in_flat_map.
  split.
  - intros (pdf_path & Hp & Hs).
    rewrite kept_document_sections in Hs.
    destruct (analyze_pdf pdf_path) as [sc|] eqn:E; [|destruct Hs].
    now exists pdf_path, sc.
  - intros (pdf_path & sc & Hp & Ha & Hs).
    exists pdf_path. split; [exact Hp|].
    now rewrite kept_document_sections, Ha.
Qed.

(** C8. When the structure extractor raises on a document, the documents
    before and after it are processed as if it were absent, the ranking is
    the ranking of the remaining documents, and the ranked sections are
    exactly the sections of the documents whose extraction did not
    raise. *)
Theorem failed_document_is_skipped :
  forall (path_name : string -> string)
         (analyze_pdf : string -> option StructuredContent)
         (page_text : string -> Z -> PageOutcome) (context : Context)
         (persona_text job_text : string)
         (before after : list string) (failing : string),
    analyze_pdf failing = None ->
    let process :=
      fun pdf_files =>
        process_documents_dynamic path_name analyze_pdf page_text pdf_files
          context in
    let rank :=
      fun processed_documents =>
        analyze_and_rank_sections persona_text job_text processed_documents
          context in
    process (before ++ failing :: after) = process before ++ process after
    /\ rank (process (before ++ failing :: after))
       = rank (process (before ++ after))
    /\ forall s : Ranked.section,
         In s (rank (process (before ++ failing :: after)))
         <-> exists pdf_path structured_content,
               In pdf_path (before ++ after)
               /\ analyze_pdf pdf_path = Some structured_content
               /\ In s (scored_sections path_name page_text context pdf_path
                          structured_content).
Proof.
  intros path_name analyze_pdf page_text context persona_text job_text
    before after failing Hfail process rank.
  assert (Hskip : process (before ++ failing :: after)
                  = process before ++ process after).
  { unfold process.
    change (failing :: after) with ([failing] ++ after).
    rewrite !process_documents_app.
    rewrite (process_documents_flat_map _ _ _ _ [failing]).
    cbn [flat_map]. unfold kept_document, process_document.
    rewrite Hfail. reflexivity. }
  assert (Hsame : process (before ++ failing :: after)
                  = process (before ++ after)).
  { rewrite Hskip. unfold process. now rewrite process_documents_app. }
  split; [exact Hskip|]. split; [now rewrite Hsame|].
  intros s. rewrite Hsame. unfold rank, analyze_and_rank_sections.
  rewrite collect_sections_encounter_order.
  rewrite <- (encounter_order_process path_name analyze_pdf page_text context).
  split; apply Permutation_in;
    [|symmetry]; apply sorted_reverse_perm.
Qed.

Lemma failed_document_is_skipped_witness :
  example_analyze_pdf "broken.pdf" = None
  /\ process_documents_dynamic (fun p => p) example_analyze_pdf
       (fun _ _ => PageOutOfRange) ["a.pdf"; "broken.pdf"; "b.pdf"]
       default_context
     = process_documents_dynamic (fun p => p) example_analyze_pdf
         (fun _ _ => PageOutOfRange) ["a.pdf"] default_context
       ++ process_documents_dynamic (fun p => p) example_analyze_pdf
            (fun _ _ => PageOutOfRange) ["b.pdf"] default_context.
Proof.
  split; [reflexivity|].
  exact (proj1 (failed_document_is_skipped (fun p => p) example_analyze_pdf
                  (fun _ _ => PageOutOfRange) default_context "" ""
                  ["a.pdf"] ["b.pdf"] "broken.pdf" eq_refl)).
Defined.

(** * Further properties of the program *)

(** ** Case of letters *)

Lemma lower_char_idempotent (c : ascii) : lower_char (lower_char c) = lower_char c.
Proof. destruct c as [[|] [|] [|] [|] [|] [|] [|] [|]]; vm_compute; reflexivity. Qed.

Lemma is_word_lower_char (c : ascii) : is_word (lower_char c) = is_word c.
Proof. destruct c as [[|] [|] [|] [|] [|] [|] [|] [|]]; vm_compute; reflexivity. Qed.

Lemma is_digit_lower_char (c : ascii) : is_digit (lower_char c) = is_digit c.
Proof. destruct c as [[|] [|] [|] [|] [|] [|] [|] [|]]; vm_compute; reflexivity. Qed.

Lemma digit_lower_char (c : ascii) : is_digit c = true -> lower_char c = c.
Proof.
  destruct c as [[|] [|] [|] [|] [|] [|] [|] [|]]; vm_compute;
    intros H; try reflexivity; discriminate H.
Qed.

Lemma lower_append (a b : string) : lower (a ++ b) = (lower a ++ lower b)%string.
Proof. induction a as [|c a IH]; simpl; [reflexivity|now rewrite IH]. Qed.

Lemma lower_idempotent (s : string) : lower (lower s) = lower s.
Proof.
  induction s as [|c s IH]; simpl; [reflexivity|].
  now rewrite lower_char_idempotent, IH.
Qed.

Lemma is_empty_lower (s : string) : is_empty (lower s) = is_empty s.
Proof. now destruct s. Qed.

(** The text read by the analyzer and by the scorer is the same for inputs
    that differ in case only. *)
Lemma lower_joined (a b : string) :
  lower (lower a ++ " " ++ lower b) = lower (a ++ " " ++ b).
Proof.
  rewrite !lower_append, !lower_idempotent. reflexivity.
Qed.

(** X1. The relevance score does not depend on the case of title and body. *)
Theorem relevance_ignores_case :
  forall (text title : string) (context : Context) (document_name : string)
         (page_num : Z),
    calculate_dynamic_relevance (lower text) (lower title) context
      document_name page_num
    = calculate_dynamic_relevance text title context document_name page_num.
Proof.
  intros. unfold calculate_dynamic_relevance.
  now rewrite !is_empty_lower, lower_joined.
Qed.

Lemma span_digit_lower (s : string) :
  span is_digit (lower s)
  = (fst (span is_digit s), lower (snd (span is_digit s))).
Proof.
  induction s as [|c s IH]; [reflexivity|].
  cbn [lower span]. rewrite is_digit_lower_char.
  destruct (is_digit c) eqn:Hc; [|reflexivity].
  rewrite IH, (digit_lower_char c Hc).
  now destruct (span is_digit s).
Qed.

Lemma head_lower (s : string) : head (lower s) = option_map lower_char (head s).
Proof. now destruct s. Qed.

Lemma is_word_opt_lower (c : option ascii) :
  Re.is_word_opt (option_map lower_char c) = Re.is_word_opt c.
Proof. destruct c; [apply is_word_lower_char|reflexivity]. Qed.

Lemma match_int_lower (min : nat) (prev : option ascii) (s : string) :
  Re.match_bounded_run is_digit min (option_map lower_char prev) (lower s)
  = Re.match_bounded_run is_digit min prev s.
Proof.
  unfold Re.match_bounded_run. rewrite span_digit_lower.
  destruct (span is_digit s) as [run rest]. cbn [fst snd].
  unfold Re.at_boundary.
  now rewrite !head_lower, !is_word_opt_lower.
Qed.

Lemma findall_int_from_lower (s : string) (prev : option ascii) (skip : nat) :
  Re.findall_from (Re.match_bounded_run is_digit 1)
    (option_map lower_char prev) skip (lower s)
  = Re.findall_from (Re.match_bounded_run is_digit 1) prev skip s.
Proof.
  revert prev skip.
  induction s as [|c s IH]; intros prev skip; [reflexivity|].
  cbn [lower Re.findall_from].
  change (String (lower_char c) (lower s)) with (lower (String c s)).
  rewrite match_int_lower.
  change (Some (lower_char c)) with (option_map lower_char (Some c)).
  destruct skip; [|apply IH].
  destruct (Re.match_bounded_run is_digit 1 prev (String c s));
    now rewrite IH.
Qed.

Lemma findall_int_lower (s : string) : Re.findall_int (lower s) = Re.findall_int s.
Proof. apply (findall_int_from_lower s None 0). Qed.

(** X2. For persona and job texts over the code points 0..255, where
    lower-casing keeps every character a single character of the same
    word class, the context analyzer does not depend on the case of the
    texts. *)
Theorem context_ignores_case :
  forall persona_text job_text : string,
    analyze_persona_job_context (lower persona_text) (lower job_text)
    = analyze_persona_job_context persona_text job_text.
Proof.
  intros. unfold analyze_persona_job_context.
  now rewrite lower_joined, findall_int_lower.
Qed.
(** ** Fields of the context *)

Lemma activity_loop (combined_text : string)
    (types : list (Activity * list string)) (init : list Activity) :
  fold_left
    (fun acc '(activity, kws) =>
       if any_in kws combined_text then acc ++ [activity] else acc)
    types init
  = init ++ map fst (filter (fun entry => any_in (snd entry) combined_text) types).
Proof.
  revert init.
  induction types as [|[a kws] types IH]; intros init; cbn [fold_left filter snd].
  - now rewrite app_nil_r.
  - rewrite IH. destruct (any_in kws combined_text); [|reflexivity].
    cbn [map fst]. now rewrite <- app_assoc.
Qed.

Lemma activity_preferences_analyze (persona_text job_text : string) :
  activity_preferences (analyze_persona_job_context persona_text job_text)
  = map fst
      (filter
         (fun entry => any_in (snd entry) (lower (persona_text ++ " " ++ job_text)))
         activity_types).
Proof.
  unfold analyze_persona_job_context.
  destruct (occurs_in "group" _); cbn [activity_preferences];
    now rewrite activity_loop.
Qed.

Lemma NoDup_map_filter {A B : Type} (g : A -> B) (f : A -> bool) (l : list A) :
  NoDup (map g l) -> NoDup (map g (filter f l)).
Proof.
  induction l as [|x l IH]; cbn [map filter]; [trivial|].
  intros H. inversion H as [|? ? Hx Hl]; subst.
  destruct (f x); [|now apply IH].
  cbn [map]. constructor; [|now apply IH].
  intros Hin. apply Hx.
  apply in_map_iff in Hin. destruct Hin as (y & Hy & Hf).
  apply filter_In in Hf. apply in_map_iff. exists y. tauto.
Qed.

(** X3. The activity preferences are the activities one of whose cue
    phrases occurs in the combined lower-cased text, each listed once, in
    the fixed order adventure, cultural, relaxation, nightlife, culinary,
    nature. *)
Theorem activity_preferences_characterised :
  forall persona_text job_text : string,
    let combined_text := lower (persona_text ++ " " ++ job_text) in
    let preferences :=
      activity_preferences (analyze_persona_job_context persona_text job_text) in
    Subseq preferences
      [adventure; cultural; relaxation; nightlife; culinary; nature]
    /\ NoDup preferences
    /\ forall a : Activity,
         In a preferences
         <-> exists cues,
               In (a, cues) activity_types /\ any_in cues combined_text = true.
Proof.
  intros persona_text job_text combined_text preferences.
  unfold preferences. rewrite activity_preferences_analyze.
  fold combined_text.
  split; [|split].
  - unfold activity_types. cbn [filter snd].
    repeat match goal with
           | |- context [if any_in ?l ?t then _ else _] => destruct (any_in l t)
           end; cbn [map fst];
      repeat first [apply Subseq_keep | apply Subseq_skip | apply Subseq_nil].
  - apply NoDup_map_filter. unfold activity_types. cbn [map fst].
    repeat constructor; cbn [In]; intuition discriminate.
  - intros a. rewrite in_map_iff. split.
    + intros ([a' cues] & Ha & Hin). cbn [fst] in Ha. subst a'.
      apply filter_In in Hin. now exists cues.
    + intros (cues & Hin & Hany). exists (a, cues). split; [reflexivity|].
      apply filter_In. now split.
Qed.

(** X4. The group fields of the context agree: the group type is "group"
    exactly when "group" occurs in the combined lower-cased text, a group
    size is recorded only for a group, none is recorded when the job text
    holds no integer, and no special requirement is ever recorded. *)
Theorem group_fields_agree :
  forall persona_text job_text : string,
    let context := analyze_persona_job_context persona_text job_text in
    (group_type context = group
     <-> occurs_in "group" (lower (persona_text ++ " " ++ job_text)) = true)
    /\ (group_size context <> None -> group_type context = group)
    /\ (Re.findall_int job_text = [] -> group_size context = None)
    /\ special_requirements context = [].
Proof.
  intros persona_text job_text. cbv zeta.
  unfold analyze_persona_job_context.
  destruct (occurs_in "group" _);
    cbn [group_type group_size special_requirements].
  - repeat split; trivial. intros H. now rewrite H.
  - repeat split; trivial; try discriminate. congruence.
Qed.

Lemma group_fields_agree_witness :
  group_size
    (analyze_persona_job_context "Travel agent" "A group of 12 friends") <> None
  /\ group_type
       (analyze_persona_job_context "Travel agent" "A group of 12 friends")
     = group.
Proof.
  assert (H : group_size
                (analyze_persona_job_context "Travel agent" "A group of 12 friends")
              <> None) by (vm_compute; discriminate).
  split; [exact H|].
  exact (proj1 (proj2 (group_fields_agree "Travel agent" "A group of 12 friends"))
           H).
Defined.
(** ** The score as a function of the context and of the hits *)

Lemma py_min_mono (a a' b : Q) : a <= a' -> py_min a b <= py_min a' b.
Proof.
  intros H. unfold py_min.
  destruct (Qle_bool a b) eqn:E, (Qle_bool a' b) eqn:E'.
  - exact H.
  - now apply Qle_bool_iff in E.
  - apply Qle_bool_iff in E'.
    assert (Hab : Qle_bool a b = true)
      by (apply Qle_bool_iff; now apply Qle_trans with a').
    congruence.
  - apply Qle_refl.
Qed.

(** The score before the cap is not negative. *)
Lemma final_score_nonneg (text title : string) (context : Context) :
  0 <= (spec_base_score (tokens_of text title)
        + spec_pattern_bonus (full_text_of text title))
       * spec_context_multiplier (full_text_of text title) context.
Proof.
  pose proof (spec_base_score_nonneg (tokens_of text title)).
  pose proof (spec_pattern_bonus_nonneg (full_text_of text title)).
  pose proof (spec_context_multiplier_ge_1 (full_text_of text title) context).
  apply Qmult_le_0_compat; lra.
Qed.

(** X5. The context can only raise a score: whatever the context, the score
    is at least the score in the default context (general, individual,
    adult, mid-range, no preference), which applies no bonus. *)
Theorem context_never_lowers_score :
  forall (text title : string) (context : Context) (document_name : string)
         (page_num : Z),
    calculate_dynamic_relevance text title default_context document_name page_num
    <= calculate_dynamic_relevance text title context document_name page_num.
Proof.
  intros text title context document_name page_num.
  rewrite !calculate_dynamic_relevance_unfold.
  destruct (tokens_of text title) as [|w ws] eqn:E; [apply Qle_refl|].
  rewrite <- E. apply py_min_mono.
  change (context_multiplier_of (full_text_of text title) default_context)
    with 1.0.
  rewrite keyword_score_of_sum, pattern_bonus_of_sum, context_multiplier_of_sum.
  fold (spec_base_score (tokens_of text title)).
  pose proof (spec_base_score_nonneg (tokens_of text title)) as Hb.
  pose proof (spec_pattern_bonus_nonneg (full_text_of text title)) as Hp.
  pose proof (spec_context_multiplier_ge_1 (full_text_of text title) context)
    as Hm.
  revert Hb Hp Hm.
  generalize (spec_base_score (tokens_of text title)) as b.
  generalize (spec_pattern_bonus (full_text_of text title)) as q.
  generalize (spec_context_multiplier (full_text_of text title) context) as m.
  intros m q b Hb Hp Hm.
  setoid_replace ((b + q) * 1.0) with (b + q) by ring.
  setoid_replace ((b + q) * m) with ((b + q) + (b + q) * (m - 1)) by ring.
  assert (0 <= (b + q) * (m - 1)) by (apply Qmult_le_0_compat; lra).
  lra.
Qed.
Lemma Zsum_zero (l : list Z) :
  Forall (fun z => (0 <= z)%Z) l -> Zsum l = 0%Z -> Forall (fun z => z = 0%Z) l.
Proof.
  unfold Zsum. induction 1 as [|z l Hz Hl IH]; cbn [fold_right]; intros H.
  - constructor.
  - pose proof (Zsum_nonneg l Hl) as Hs. unfold Zsum in Hs.
    constructor; [lia|]. apply IH. lia.
Qed.

Lemma Qsum_zero (l : list Q) :
  Forall (fun q => 0 <= q) l -> Qsum l == 0 -> Forall (fun q => q == 0) l.
Proof.
  induction 1 as [|q l Hq Hl IH]; rewrite ?Qsum_cons; intros H.
  - constructor.
  - pose proof (Qsum_nonneg l Hl) as Hs.
    constructor; [lra|]. apply IH. lra.
Qed.

(** Every key of the keyword table has a positive weight. *)
Lemma table_weight_positive (token : string) :
  Dict.mem token travel_keywords = true -> (0 < table_weight token)%Z.
Proof.
  unfold Dict.mem, table_weight, get_or.
  destruct (Dict.get token travel_keywords) as [v|] eqn:E; [|discriminate].
  intros _. apply dict_get_In in E.
  assert (H : forallb (Z.ltb 0) (map snd travel_keywords) = true)
    by (vm_compute; reflexivity).
  rewrite forallb_forall in H. apply Z.ltb_lt. now apply H.
Qed.

Lemma zero_weights_no_keyword (text title : string) :
  Zsum (map table_weight (tokens_of text title)) = 0%Z ->
  no_keyword_token text title = true.
Proof.
  intros H. unfold no_keyword_token.
  apply Zsum_zero in H.
  - apply forallb_forall. intros w Hw.
    rewrite Forall_forall in H.
    specialize (H (table_weight w) (in_map _ _ _ Hw)).
    destruct (Dict.mem w travel_keywords) eqn:E; [|reflexivity].
    apply table_weight_positive in E. lia.
  - apply Forall_forall. intros z Hz.
    apply in_map_iff in Hz. destruct Hz as (t & <- & _).
    apply table_weight_nonneg.
Qed.

Lemma no_hits_no_phrase (full_text : string) (phrases : list string) :
  filter (fun phrase => occurs_in phrase full_text) phrases = [] ->
  forallb (fun keyword => negb (occurs_in keyword full_text)) phrases = true.
Proof.
  induction phrases as [|p phrases IH]; cbn [filter forallb]; [reflexivity|].
  destruct (occurs_in p full_text); [discriminate|]. exact IH.
Qed.

Lemma zero_bonus_no_pattern (text title : string) :
  spec_pattern_bonus (full_text_of text title) == 0 ->
  no_pattern_phrase text title = true.
Proof.
  unfold spec_pattern_bonus, no_pattern_phrase. intros H.
  assert (Hw : forallb (fun i => negb (Qle_bool (weight_multiplier i) 0))
                 content_patterns = true) by (vm_compute; reflexivity).
  rewrite forallb_forall in Hw.
  apply Qsum_zero in H.
  - apply forallb_forall. intros info Hin.
    rewrite Forall_forall in H.
    specialize (H _ (in_map _ _ _ Hin)). cbv beta in H.
    specialize (Hw info Hin).
    apply no_hits_no_phrase.
    unfold spec_hits in H.
    destruct (filter _ (keywords info)) as [|x xs]; [reflexivity|].
    exfalso.
    assert (Hm : 0 < weight_multiplier info).
    { apply Qnot_le_lt. intros Hle. apply Qle_bool_iff in Hle.
      rewrite Hle in Hw. discriminate. }
    assert (Hn : 1 <= inject_Z (Z.of_nat (List.length (x :: xs)))).
    { change 1 with (inject_Z 1). rewrite <- Zle_Qle. cbn [List.length]. lia. }
    revert H Hn Hm.
    generalize (inject_Z (Z.of_nat (List.length (x :: xs)))) as n.
    generalize (weight_multiplier info) as m. intros m n H Hn Hm.
    assert (0 < n * m) by (apply Qmult_lt_0_compat; lra).
    assert (Hz : n * m == 0) by (apply (Qmult_inj_r _ _ 5); [discriminate|lra]).
    lra.
  - apply Forall_forall. intros q Hq.
    apply in_map_iff in Hq. destruct Hq as (info & <- & Hin).
    assert (Hw' : forallb (fun i => Qle_bool 0 (weight_multiplier i))
                    content_patterns = true) by (vm_compute; reflexivity).
    rewrite forallb_forall in Hw'. specialize (Hw' info Hin).
    apply Qle_bool_iff in Hw'.
    apply Qmult_le_0_compat; [|discriminate].
    apply Qmult_le_0_compat; [|exact Hw'].
    change 0 with (inject_Z 0). rewrite <- Zle_Qle. lia.
Qed.

Lemma base_score_zero (tokens : list string) :
  tokens <> [] -> spec_base_score tokens == 0 ->
  Zsum (map table_weight tokens) = 0%Z.
Proof.
  unfold spec_base_score. intros Hne H.
  assert (Hn : 0 < inject_Z (Z.of_nat (List.length tokens))).
  { change 0 with (inject_Z 0). rewrite <- Zlt_Qlt.
    destruct tokens; [congruence|cbn [List.length]; lia]. }
  revert H Hn.
  generalize (inject_Z (Z.of_nat (List.length tokens))) as n. intros n H Hn.
  assert (Hs : inject_Z (Zsum (map table_weight tokens)) == 0).
  { assert (Hd : inject_Z (Zsum (map table_weight tokens)) / n == 0)
      by (apply (Qmult_inj_r _ _ 10); [discriminate|lra]).
    rewrite <- (Qmult_div_r (inject_Z (Zsum (map table_weight tokens))) n)
      by lra.
    rewrite Hd. ring. }
  exact (proj1 (inject_Z_injective _ 0%Z) Hs).
Qed.

Lemma py_min_zero (a : Q) : 0 <= a -> py_min a 100.0 == 0 -> a == 0.
Proof.
  unfold py_min. intros Ha.
  destruct (Qle_bool a 100.0); [trivial|discriminate].
Qed.

(** X6. The score is 0 exactly when the text has no token, or when none of
    its tokens is in the keyword table and no phrase of a content pattern
    occurs in it; the context plays no part. *)
Theorem zero_score_characterised :
  forall (text title : string) (context : Context) (document_name : string)
         (page_num : Z),
    calculate_dynamic_relevance text title context document_name page_num == 0
    <-> tokens_of text title = []
        \/ (no_keyword_token text title = true
            /\ no_pattern_phrase text title = true).
Proof.
  intros text title context document_name page_num.
  rewrite calculate_dynamic_relevance_unfold.
  destruct (tokens_of text title) as [|w ws] eqn:E.
  { split; [now left|reflexivity]. }
  rewrite <- E.
  pose proof (final_score_sum text title context) as Hsum. cbv zeta in Hsum.
  pose proof (final_score_nonneg text title context) as Hnn.
  pose proof (spec_base_score_nonneg (tokens_of text title)) as Hb.
  pose proof (spec_pattern_bonus_nonneg (full_text_of text title)) as Hp.
  pose proof (spec_context_multiplier_ge_1 (full_text_of text title) context)
    as Hm.
  split.
  - intros H. right.
    apply py_min_zero in H; [|now rewrite Hsum].
    rewrite Hsum in H.
    assert (Hz : spec_base_score (tokens_of text title)
                 + spec_pattern_bonus (full_text_of text title) == 0).
    { apply Qmult_integral in H. destruct H as [H|H]; [exact H|lra]. }
    split.
    + apply zero_weights_no_keyword, base_score_zero; [congruence|lra].
    + apply zero_bonus_no_pattern. lra.
  - intros [H|[Hk Hq]]; [congruence|].
    rewrite (py_min_compat _ 0 100.0); [reflexivity|].
    rewrite Hsum, (no_pattern_phrase_sum _ _ Hq). unfold spec_base_score.
    rewrite (no_keyword_token_sum _ _ Hk).
    change (inject_Z 0) with 0. unfold Qdiv. ring.
Qed.
(** ** Scoring a title against itself *)

Lemma span_append_stop (p : ascii -> bool) (sep : ascii) (a b : string) :
  p sep = false ->
  span p (a ++ String sep b)
  = (fst (span p a), (snd (span p a) ++ String sep b)%string).
Proof.
  intros Hsep.
  induction a as [|c a IH]; cbn [String.append span].
  - now rewrite Hsep.
  - destruct (p c); [|reflexivity].
    rewrite IH. now destruct (span p a).
Qed.

Lemma prefix_length (w s : string) :
  prefix w s = true -> (String.length w <= String.length s)%nat.
Proof.
  intros H. apply prefix_split in H. destruct H as [r ->].
  induction w as [|c w IH]; cbn [String.append String.length]; lia.
Qed.

Lemma match_words_append (prev : option ascii) (a b : string) :
  Re.match_bounded_run is_ascii_letter 3 prev (a ++ String " " b)
  = Re.match_bounded_run is_ascii_letter 3 prev a.
Proof.
  unfold Re.match_bounded_run.
  rewrite span_append_stop by reflexivity.
  destruct (span is_ascii_letter a) as [run rest] eqn:E. cbn [fst snd].
  destruct (3 <=? String.length run)%nat eqn:Hlen; [|reflexivity].
  cbn [andb].
  destruct a as [|c a].
  - cbn in E. inversion E; subst. discriminate Hlen.
  - cbn [String.append head].
    destruct rest as [|r rest]; reflexivity.
Qed.

Lemma findall_prev_nonword (m := Re.match_bounded_run is_ascii_letter 3)
    (prev : option ascii) (skip : nat) (s : string) :
  Re.is_word_opt prev = false ->
  Re.findall_from m prev skip s = Re.findall_from m None skip s.
Proof.
  intros H. destruct s as [|c s]; [reflexivity|].
  cbn [Re.findall_from]. destruct skip; [|reflexivity].
  assert (Hm : m prev (String c s) = m None (String c s)).
  { unfold m, Re.match_bounded_run, Re.at_boundary. now rewrite H. }
  now rewrite Hm.
Qed.

Lemma findall_words_from_append (a b : string) (prev : option ascii) (skip : nat) :
  (skip <= String.length a)%nat ->
  Re.findall_from (Re.match_bounded_run is_ascii_letter 3) prev skip
    (a ++ String " " b)
  = Re.findall_from (Re.match_bounded_run is_ascii_letter 3) prev skip a
    ++ Re.findall_words b.
Proof.
  revert prev skip.
  induction a as [|c a IH]; intros prev skip Hskip.
  - cbn [String.length] in Hskip. assert (skip = 0%nat) by lia. subst skip.
    cbn [String.append Re.findall_from app].
    change (Re.match_bounded_run is_ascii_letter 3 prev (String " " b))
      with (@None string).
    now apply findall_prev_nonword.
  - cbn [String.append Re.findall_from]. cbn [String.length] in Hskip.
    destruct skip as [|k]; [|apply IH; lia].
    change (String c (a ++ String " " b))
      with ((String c a) ++ String " " b)%string.
    rewrite match_words_append.
    destruct (Re.match_bounded_run is_ascii_letter 3 prev (String c a))
      as [w|] eqn:E; [|apply IH; lia].
    cbn [app]. f_equal. apply IH.
    destruct (match_bounded_run_spec _ _ _ _ _ E) as (_ & _ & Hp).
    apply prefix_length in Hp. cbn [String.length] in Hp. lia.
Qed.

(** The tokens of two texts joined by a space are the tokens of the first
    followed by the tokens of the second. *)
Lemma findall_words_append (a b : string) :
  Re.findall_words (a ++ " " ++ b)
  = Re.findall_words a ++ Re.findall_words b.
Proof. apply findall_words_from_append. lia. Qed.

Lemma prefix_space_free (kw x b : string) :
  space_free kw = true ->
  prefix kw (x ++ String " " b) = prefix kw x.
Proof.
  revert x.
  induction kw as [|k kw IH]; intros x H.
  - now destruct x.
  - cbn [space_free forallb_str] in H. apply andb_true_iff in H.
    destruct H as [Hk Hkw].
    destruct x as [|c x]; cbn [String.append prefix].
    + destruct (ascii_dec k " ") as [->|]; [discriminate Hk|reflexivity].
    + destruct (ascii_dec k c); [now apply IH|reflexivity].
Qed.

(** A phrase without a space occurs in two texts joined by a space exactly
    when it occurs in one of them. *)
Lemma occurs_in_joined (kw a b : string) :
  space_free kw = true -> is_empty kw = false ->
  occurs_in kw (a ++ " " ++ b) = occurs_in kw a || occurs_in kw b.
Proof.
  intros Hs Hne.
  change (a ++ " " ++ b)%string with (a ++ String " " b)%string.
  induction a as [|c a IH].
  - cbn [String.append]. cbn [occurs_in].
    rewrite (prefix_space_free kw "" b Hs : prefix kw (String " " b) = _).
    destruct kw; [discriminate|reflexivity].
  - cbn [String.append]. cbn [occurs_in].
    rewrite IH.
    rewrite (prefix_space_free kw (String c a) b Hs
             : prefix kw (String c (a ++ String " " b)) = _).
    now rewrite orb_assoc.
Qed.

Lemma occurs_in_empty (kw : string) : is_empty kw = false -> occurs_in kw "" = false.
Proof. destruct kw; [discriminate|reflexivity]. Qed.

(** A phrase usable as a cue: not empty and without a space. *)
Lemma any_in_same_hits (f1 f2 : string) (cues : list string) :
  (forall kw, space_free kw = true -> is_empty kw = false ->
              occurs_in kw f1 = occurs_in kw f2) ->
  forallb (fun kw => space_free kw && negb (is_empty kw)) cues = true ->
  any_in cues f1 = any_in cues f2.
Proof.
  intros H. unfold any_in.
  induction cues as [|kw cues IH]; cbn [forallb existsb]; [reflexivity|].
  intros Hc. apply andb_true_iff in Hc. destruct Hc as [Hk Hcs].
  apply andb_true_iff in Hk. destruct Hk as [Hs Hne].
  rewrite (H kw Hs), (IH Hcs); [reflexivity|].
  now destruct (is_empty kw).
Qed.

Lemma fold_left_pointwise_in {A B : Type} (f g : B -> A -> B) (l : list A)
    (init : B) :
  (forall x, In x l -> forall acc, f acc x = g acc x) ->
  fold_left f l init = fold_left g l init.
Proof.
  revert init.
  induction l as [|x l IH]; intros init H; cbn [fold_left]; [reflexivity|].
  rewrite (H x (or_introl eq_refl)). apply IH.
  intros y Hy. apply H. now right.
Qed.

Lemma pattern_bonus_same_hits (f1 f2 : string) :
  (forall kw, space_free kw = true -> is_empty kw = false ->
              occurs_in kw f1 = occurs_in kw f2) ->
  pattern_bonus_of f1 = pattern_bonus_of f2.
Proof.
  intros H. unfold pattern_bonus_of.
  apply fold_left_pointwise_in. intros info Hin acc.
  assert (Hm : pattern_matches_of f1 info = pattern_matches_of f2 info).
  { unfold pattern_matches_of. f_equal.
    assert (Hk : forallb
                   (fun i => forallb (fun kw => space_free kw && negb (is_empty kw))
                               (keywords i))
                   content_patterns = true) by (vm_compute; reflexivity).
    rewrite forallb_forall in Hk. specialize (Hk info Hin).
    rewrite forallb_forall in Hk.
    apply filter_ext_in. intros kw Hkw. specialize (Hk kw Hkw).
    apply andb_true_iff in Hk. destruct Hk as [Hs Hne].
    apply H; [exact Hs|now destruct (is_empty kw)]. }
  cbv zeta. now rewrite Hm.
Qed.

Lemma context_multiplier_same_hits (f1 f2 : string) (context : Context) :
  (forall kw, space_free kw = true -> is_empty kw = false ->
              occurs_in kw f1 = occurs_in kw f2) ->
  context_multiplier_of f1 context = context_multiplier_of f2 context.
Proof.
  intros H. unfold context_multiplier_of.
  rewrite (fold_left_pointwise (preference_step f1) (preference_step f2)).
  - rewrite !(any_in_same_hits f1 f2 _ H) by reflexivity. reflexivity.
  - intros m a. unfold preference_step.
    rewrite !(any_in_same_hits f1 f2 _ H) by reflexivity. reflexivity.
Qed.

Lemma Zsum_app (l l' : list Z) : Zsum (l ++ l') = (Zsum l + Zsum l')%Z.
Proof.
  unfold Zsum. induction l as [|z l IH]; cbn [app fold_right]; lia.
Qed.

(** X7. The pipeline passes the section title as both title and body; the
    score it gets is the score of the title with an empty body. *)
Theorem title_as_body_scores_as_title_alone :
  forall (title : string) (context : Context) (document_name : string)
         (page_num : Z),
    calculate_dynamic_relevance title title context document_name page_num
    == calculate_dynamic_relevance "" title context document_name page_num.
Proof.
  intros title context document_name page_num.
  rewrite !calculate_dynamic_relevance_unfold.
  unfold tokens_of, full_text_of.
  rewrite !lower_append. change (lower " ") with " ". change (lower "") with "".
  set (L := lower title).
  rewrite !findall_words_append.
  change (Re.findall_words "") with (@nil string). rewrite app_nil_r.
  assert (H1 : forall kw, space_free kw = true -> is_empty kw = false ->
                          occurs_in kw (L ++ " " ++ L) = occurs_in kw L).
  { intros kw Hs Hne. rewrite occurs_in_joined by assumption.
    apply orb_diag. }
  assert (H2 : forall kw, space_free kw = true -> is_empty kw = false ->
                          occurs_in kw (L ++ " " ++ "") = occurs_in kw L).
  { intros kw Hs Hne. rewrite occurs_in_joined by assumption.
    rewrite occurs_in_empty by assumption. apply orb_false_r. }
  rewrite (pattern_bonus_same_hits _ _ H1), (pattern_bonus_same_hits _ _ H2).
  rewrite (context_multiplier_same_hits _ _ context H1),
    (context_multiplier_same_hits _ _ context H2).
  destruct (Re.findall_words L) as [|w ws] eqn:E; [reflexivity|].
  rewrite <- E. destruct (Re.findall_words L ++ Re.findall_words L) eqn:E2.
  { rewrite E in E2. discriminate E2. }
  rewrite <- E2. clear E2.
  apply py_min_compat.
  rewrite !keyword_score_of_sum, map_app, Zsum_app, length_app.
  rewrite Nat2Z.inj_add, !inject_Z_plus.
  assert (Hn : ~ inject_Z (Z.of_nat (List.length (Re.findall_words L))) == 0).
  { rewrite E. change 0 with (inject_Z 0). rewrite inject_Z_injective.
    cbn [List.length]. lia. }
  revert Hn.
  generalize (inject_Z (Z.of_nat (List.length (Re.findall_words L)))) as n.
  generalize (inject_Z (Zsum (map table_weight (Re.findall_words L)))) as k.
  intros k n Hn. field. split; [exact Hn|].
  intros H. apply Hn. lra.
Qed.
(** ** The block loop of the content synthesizer *)

Lemma string_length_append (a b : string) :
  String.length (a ++ b) = (String.length a + String.length b)%nat.
Proof. induction a as [|c a IH]; cbn; [reflexivity|now rewrite IH]. Qed.

Lemma join_snoc (sep : string) (l : list string) (x : string) :
  join sep (l ++ [x])
  = match l with
    | [] => x
    | _ :: _ => (join sep l ++ sep ++ x)%string
    end.
Proof.
  induction l as [|a l IH]; [reflexivity|].
  cbn [app]. destruct l as [|b l].
  - reflexivity.
  - change (join sep (a :: (b :: l) ++ [x]))
      with (a ++ sep ++ join sep ((b :: l) ++ [x]))%string.
    rewrite IH. cbn [join]. now rewrite !append_assoc.
Qed.

Lemma join_removelast_le (sep : string) (l : list string) :
  (String.length (join sep (removelast l)) <= String.length (join sep l))%nat.
Proof.
  destruct l as [|a l]; [reflexivity|].
  assert (Hne : a :: l <> []) by discriminate.
  rewrite (app_removelast_last "" Hne) at 2.
  rewrite join_snoc.
  destruct (removelast (a :: l)); cbn [join String.length]; [lia|].
  rewrite !string_length_append. lia.
Qed.

Lemma Subseq_nil_l {A : Type} (l : list A) : Subseq [] l.
Proof. induction l; constructor; assumption. Qed.

(** What the loop returns extends the blocks it had already accepted by
    stripped, meaningful blocks of the page, in page order. *)
Lemma scan_blocks_extends (section_title : string) (target : nat)
    (text_blocks : list string) (extracted_content : list string)
    (section_found : bool) :
  exists accepted,
    scan_blocks section_title target text_blocks extracted_content section_found
    = extracted_content ++ accepted
    /\ Subseq accepted (map strip text_blocks)
    /\ Forall (fun block_text => meaningful_block block_text = true) accepted.
Proof.
  revert extracted_content section_found.
  induction text_blocks as [|block rest IH]; intros acc found.
  - exists []. cbn. rewrite app_nil_r. repeat split; constructor.
  - cbn [scan_blocks map]. cbv zeta.
    fold (meaningful_block (strip block)).
    assert (Hskip : forall acc' found',
               exists accepted,
                 scan_blocks section_title target rest acc' found'
                 = acc' ++ accepted
                 /\ Subseq accepted (strip block :: map strip rest)
                 /\ Forall (fun b => meaningful_block b = true) accepted).
    { intros acc' found'. destruct (IH acc' found') as (r & Hr & Hs & Hf).
      exists r. repeat split; try assumption. now constructor. }
    destruct (_ || _ || found); [|apply Hskip].
    destruct (String.eqb _ _); [apply Hskip|].
    destruct (meaningful_block (strip block)) eqn:Hm.
    + destruct (target <? _)%nat.
      * exists [strip block]. repeat split.
        -- apply Subseq_keep, Subseq_nil_l.
        -- now repeat constructor.
      * destruct (IH (acc ++ [strip block]) true) as (r & Hr & Hs & Hf).
        exists (strip block :: r). rewrite Hr, <- app_assoc.
        repeat split; try now constructor.
    + destruct (target <? _)%nat; [|apply Hskip].
      exists []. rewrite app_nil_r. repeat split; [apply Subseq_nil_l|constructor].
Qed.

(** X8. The blocks extracted from a page are stripped blocks of that page
    in page order, each longer than 20 characters and not a number. *)
Theorem extracted_blocks_are_meaningful_page_blocks :
  forall (section_title : string) (content_length_target : nat)
         (text_blocks : list string),
    let extracted_content :=
      scan_blocks section_title content_length_target text_blocks [] false in
    Subseq extracted_content (map strip text_blocks)
    /\ Forall (fun block_text =>
                 (20 < String.length block_text)%nat
                 /\ isdigit block_text = false)
         extracted_content.
Proof.
  intros section_title target text_blocks. cbv zeta.
  destruct (scan_blocks_extends section_title target text_blocks [] false)
    as (r & -> & Hs & Hf).
  cbn [app]. split; [exact Hs|].
  eapply Forall_impl; [|exact Hf].
  intros b Hb. unfold meaningful_block in Hb.
  apply andb_true_iff in Hb. destruct Hb as [Hl Hd].
  apply Nat.ltb_lt in Hl. split; [exact Hl|].
  now destruct (isdigit b).
Qed.

(** While no block mentions the title the loop accepts nothing. *)
Lemma scan_blocks_not_found (section_title : string) (target : nat)
    (text_blocks : list string) (extracted_content : list string) :
  forallb (fun block => negb (mentions_title section_title block)) text_blocks
  = true ->
  scan_blocks section_title target text_blocks extracted_content false
  = extracted_content.
Proof.
  induction text_blocks as [|block rest IH]; cbn [forallb scan_blocks];
    [reflexivity|].
  intros H. apply andb_true_iff in H. destruct H as [Hb Hrest].
  unfold mentions_title in Hb. cbv zeta in *.
  rewrite orb_false_r.
  destruct (_ || _); [discriminate Hb|]. now apply IH.
Qed.

(** X9. When no block of the page mentions the section title (neither the
    whole title nor one of its words longer than three characters), the
    synthesizer returns the fallback text, however much text the page
    holds. *)
Theorem unmentioned_title_gets_fallback :
  forall (page_text : string -> Z -> PageOutcome) (pdf_path : string)
         (page_num : Z) (section_title : string) (context : Context)
         (text_blocks : list string),
    page_text pdf_path page_num = PageBlocks text_blocks ->
    forallb (fun block => negb (mentions_title section_title block)) text_blocks
    = true ->
    extract_dynamic_content page_text pdf_path page_num section_title context
    = _generate_dynamic_fallback section_title pdf_path context.
Proof.
  intros page_text pdf_path page_num section_title context text_blocks Hp Hm.
  unfold extract_dynamic_content. rewrite Hp. cbv zeta.
  now rewrite scan_blocks_not_found.
Qed.

Lemma unmentioned_title_gets_fallback_witness :
  extract_dynamic_content
    (fun _ _ =>
       PageBlocks ["Opening hours and ticket prices of the old harbour museum."])
    "city.pdf" 2 "Nightlife" default_context
  = _generate_dynamic_fallback "Nightlife" "city.pdf" default_context.
Proof.
  apply (unmentioned_title_gets_fallback
           (fun _ _ =>
              PageBlocks
                ["Opening hours and ticket prices of the old harbour museum."])
           "city.pdf" 2 "Nightlife" default_context
           ["Opening hours and ticket prices of the old harbour museum."]).
  - reflexivity.
  - vm_compute. reflexivity.
Defined.

Lemma scan_blocks_within_target (section_title : string) (target : nat)
    (text_blocks : list string) (extracted_content : list string)
    (section_found : bool) :
  (String.length (join " " extracted_content) <= target)%nat ->
  (String.length
     (join " "
        (removelast
           (scan_blocks section_title target text_blocks extracted_content
              section_found)))
   <= target)%nat.
Proof.
  revert extracted_content section_found.
  induction text_blocks as [|block rest IH]; intros acc found Hacc.
  - cbn [scan_blocks]. pose proof (join_removelast_le " " acc). lia.
  - cbn [scan_blocks]. cbv zeta.
    destruct (_ || _ || found); [|now apply IH].
    destruct (String.eqb _ _); [now apply IH|].
    destruct (_ && _).
    + destruct (target <? String.length (join " " (acc ++ [strip block])))%nat
        eqn:E.
      * now rewrite removelast_last.
      * apply IH. apply Nat.ltb_ge in E. exact E.
    + destruct (target <? String.length (join " " acc))%nat eqn:E.
      * apply Nat.ltb_lt in E. lia.
      * now apply IH.
Qed.

(** X10. The loop stops as soon as the accepted text is longer than the
    target: without its last block the extracted text fits the target. *)
Theorem extraction_stops_at_target :
  forall (section_title : string) (content_length_target : nat)
         (text_blocks : list string),
    (String.length
       (join " "
          (removelast
             (scan_blocks section_title content_length_target text_blocks []
                false)))
     <= content_length_target)%nat.
Proof.
  intros. apply scan_blocks_within_target. cbn. lia.
Qed.

(** X11. The synthesizer returns the fallback text or a text of at least
    100 characters. *)
Theorem content_is_fallback_or_long :
  forall (page_text : string -> Z -> PageOutcome) (pdf_path : string)
         (page_num : Z) (section_title : string) (context : Context),
    let content :=
      extract_dynamic_content page_text pdf_path page_num section_title context in
    content = _generate_dynamic_fallback section_title pdf_path context
    \/ (100 <= String.length content)%nat.
Proof.
  intros page_text pdf_path page_num section_title context. cbv zeta.
  unfold extract_dynamic_content.
  destruct (page_text pdf_path page_num) as [| |text_blocks]; try now left.
  cbv zeta.
  destruct (scan_blocks _ _ _ _ _) as [|b bs]; [now left|].
  destruct (String.length (normalize_content (b :: bs)) <? 100)%nat eqn:E;
    [now left|].
  right. now apply Nat.ltb_ge in E.
Qed.
(** ** The clean-up of extracted text *)

Lemma forallb_str_append (P : ascii -> bool) (a b : string) :
  forallb_str P (a ++ b) = forallb_str P a && forallb_str P b.
Proof.
  induction a as [|c a IH]; cbn [String.append forallb_str]; [reflexivity|].
  now rewrite IH, andb_assoc.
Qed.

Lemma forallb_str_rev (P : ascii -> bool) (s : string) :
  forallb_str P (rev s) = forallb_str P s.
Proof.
  induction s as [|c s IH]; cbn [rev forallb_str]; [reflexivity|].
  rewrite forallb_str_append, IH. cbn [forallb_str].
  rewrite andb_true_r. apply andb_comm.
Qed.

Lemma forallb_str_span_rest (P p : ascii -> bool) (s : string) :
  forallb_str P s = true -> forallb_str P (snd (span p s)) = true.
Proof.
  induction s as [|c s IH]; cbn [span forallb_str]; [trivial|].
  intros H. destruct (p c); [|exact H].
  apply andb_true_iff in H. destruct H as [_ H].
  specialize (IH H). now destruct (span p s).
Qed.

Lemma forallb_str_strip (P : ascii -> bool) (s : string) :
  forallb_str P s = true -> forallb_str P (strip s) = true.
Proof.
  intros H. unfold strip, lstrip.
  rewrite forallb_str_rev. apply forallb_str_span_rest.
  rewrite forallb_str_rev. now apply forallb_str_span_rest.
Qed.

(** A substitution establishes a property of characters that holds for
    the replacement and for every character it leaves in place. *)
Lemma sub_from_removes (P : ascii -> bool) (m : string -> option nat)
    (repl : string) :
  forallb_str P repl = true ->
  (forall c t, m (String c t) = None -> P c = true) ->
  forall (s : string) (skip : nat),
    forallb_str P (Re.sub_from m repl skip s) = true.
Proof.
  intros Hrepl Hkeep.
  induction s as [|c s IH]; intros skip; [reflexivity|].
  cbn [Re.sub_from]. destruct skip; [|apply IH].
  destruct (m (String c s)) as [n|] eqn:E.
  - rewrite forallb_str_append, Hrepl. apply IH.
  - cbn [forallb_str]. now rewrite IH, (Hkeep c s E).
Qed.

(** A substitution keeps a property of characters that holds for the
    replacement and for the text. *)
Lemma sub_from_keeps (P : ascii -> bool) (m : string -> option nat)
    (repl : string) :
  forallb_str P repl = true ->
  forall (s : string) (skip : nat),
    forallb_str P s = true ->
    forallb_str P (Re.sub_from m repl skip s) = true.
Proof.
  intros Hrepl.
  induction s as [|c s IH]; intros skip H; [reflexivity|].
  cbn [forallb_str] in H. apply andb_true_iff in H. destruct H as [Hc Hs].
  cbn [Re.sub_from]. destruct skip; [|now apply IH].
  destruct (m (String c s)) as [n|].
  - rewrite forallb_str_append, Hrepl. now apply IH.
  - cbn [forallb_str]. now rewrite IH, Hc.
Qed.

Lemma sub_leading_bullet_keeps (P : ascii -> bool) (s : string) :
  forallb_str P s = true -> forallb_str P (Re.sub_leading_bullet s) = true.
Proof.
  intros H. unfold Re.sub_leading_bullet.
  destruct s as [|c t]; [reflexivity|].
  destruct (_ || _); [|exact H].
  cbn [forallb_str] in H. apply andb_true_iff in H. destruct H as [_ H].
  now apply forallb_str_span_rest.
Qed.

Lemma span_rest_head (p : ascii -> bool) (s : string) :
  match head (snd (span p s)) with
  | Some c => p c = false
  | None => True
  end.
Proof.
  induction s as [|c s IH]; cbn [span]; [exact I|].
  destruct (p c) eqn:E; [|exact E].
  now destruct (span p s).
Qed.

Lemma span_rest_last (p : ascii -> bool) (s : string) :
  snd (span p s) = "" \/ last (snd (span p s)) = last s.
Proof.
  induction s as [|c s IH]; cbn [span]; [now left|].
  destruct (p c); [|now right].
  destruct s as [|c' s']; [now left|].
  change (last (String c (String c' s'))) with (last (String c' s')).
  now destruct (span p (String c' s')).
Qed.

Lemma last_append_char (s : string) (c : ascii) :
  last (s ++ String c "") = Some c.
Proof.
  induction s as [|x s IH]; [reflexivity|].
  cbn [String.append]. change (last (String x (s ++ String c "")))
    with (match (s ++ String c "")%string with
          | "" => Some x
          | String _ _ => last (s ++ String c "")
          end).
  rewrite IH. now destruct s.
Qed.

Lemma last_rev (s : string) : last (rev s) = head s.
Proof. destruct s as [|c s]; [reflexivity|apply last_append_char]. Qed.

Lemma head_append (a b : string) :
  head (a ++ b) = match head a with Some c => Some c | None => head b end.
Proof. now destruct a. Qed.

Lemma last_cons (c : ascii) (s : string) :
  last (String c s)
  = match last s with Some x => Some x | None => Some c end.
Proof.
  revert c. induction s as [|a s IH]; intros c; [reflexivity|].
  change (last (String c (String a s))) with (last (String a s)).
  rewrite (IH a). now destruct (last s).
Qed.

Lemma head_rev (s : string) : head (rev s) = last s.
Proof.
  induction s as [|c s IH]; [reflexivity|].
  cbn [rev]. now rewrite head_append, IH, last_cons.
Qed.

(** [strip] leaves no whitespace at either end. *)
Lemma strip_no_outer_space (s : string) : no_outer_space (strip s) = true.
Proof.
  unfold no_outer_space, strip.
  rewrite head_rev, last_rev. unfold lstrip.
  pose proof (span_rest_head is_space (rev (snd (span is_space s)))) as Hh.
  pose proof (span_rest_last is_space (rev (snd (span is_space s)))) as Hl.
  pose proof (span_rest_head is_space s) as Hs.
  destruct (head (snd (span is_space (rev (snd (span is_space s)))))) as [c|];
    [rewrite Hh|]; cbn [negb andb].
  - destruct Hl as [Hl|Hl]; [now rewrite Hl|].
    rewrite Hl, last_rev.
    destruct (head (snd (span is_space s))); [now rewrite Hs|reflexivity].
  - destruct Hl as [Hl|Hl]; [now rewrite Hl|].
    rewrite Hl, last_rev.
    destruct (head (snd (span is_space s))); [now rewrite Hs|reflexivity].
Qed.

(** X12. The cleaned text has no whitespace at either end, no whitespace
    character other than the space, and none of the bullet characters. *)
Theorem cleaned_content_shape :
  forall extracted_content : list string,
    let result := normalize_content extracted_content in
    no_outer_space result = true
    /\ only_plain_spaces result = true
    /\ forallb_str (fun c => negb (Re.is_bullet c)) result = true.
Proof.
  intros extracted_content. unfold normalize_content. cbv zeta.
  split; [apply strip_no_outer_space|]. split.
  - unfold only_plain_spaces. apply forallb_str_strip.
    unfold Re.sub_double_semicolon, Re.sub_bullets.
    apply sub_from_keeps; [reflexivity|].
    apply sub_from_keeps; [reflexivity|].
    apply sub_leading_bullet_keeps.
    unfold Re.sub_spaces. apply sub_from_removes; [reflexivity|].
    intros c t H. unfold Re.match_spaces in H. cbn [span] in H.
    destruct (is_space c); [|reflexivity].
    destruct (span is_space t). discriminate H.
  - apply forallb_str_strip.
    unfold Re.sub_double_semicolon, Re.sub_bullets.
    apply sub_from_keeps; [reflexivity|].
    apply sub_from_removes; [reflexivity|].
    intros c t H. unfold Re.match_bullet in H.
    destruct (Re.is_bullet c); [discriminate H|reflexivity].
Qed.
(** ** The fallback text *)

Lemma occurs_in_append_r (x a b : string) :
  occurs_in x a = true -> occurs_in x (a ++ b) = true.
Proof.
  induction a as [|c a IH]; intros H; cbn [occurs_in] in H;
    apply orb_true_iff in H; destruct H as [H|H]; try discriminate.
  - apply occurs_in_prefix. apply prefix_split in H. destruct H as [r H].
    destruct x; [now destruct b|discriminate H].
  - apply occurs_in_prefix. apply prefix_split in H. destruct H as [r ->].
    rewrite append_assoc. apply prefix_append.
  - cbn [String.append]. apply occurs_in_tail. now apply IH.
Qed.

Lemma hd_error_app {A : Type} (l l' : list A) (x : A) :
  hd_error l = Some x -> hd_error (l ++ l') = Some x.
Proof. destruct l; [discriminate|trivial]. Qed.

Lemma hd_error_append_if (cond : bool) (part : string) (l : list string)
    (x : string) :
  hd_error l = Some x -> hd_error (append_if cond part l) = Some x.
Proof.
  intros H. unfold append_if. destruct cond; [now apply hd_error_app|exact H].
Qed.

Lemma hd_error_closing_parts (context : Context) (l : list string) (x : string) :
  hd_error l = Some x -> hd_error (closing_parts context l) = Some x.
Proof.
  intros H. unfold closing_parts. cbv zeta.
  repeat match goal with
         | |- context [if ?b then _ else _] => destruct b
         end; try apply hd_error_app; exact H.
Qed.

Lemma join_hd_prefix (sep : string) (parts : list string) (first : string) :
  hd_error parts = Some first -> prefix first (join sep parts) = true.
Proof.
  destruct parts as [|p rest]; [discriminate|].
  cbn [hd_error]. intros H. inversion H; subst.
  destruct rest; cbn [join]; [|apply prefix_append].
  rewrite <- (prefix_append first ""). f_equal.
  induction first as [|c first IH]; cbn; [reflexivity|now rewrite <- IH].
Qed.

(** The first sentence written by each branch names the lower-cased
    title. *)
Lemma section_parts_first (section_type : SectionType)
    (section_title title_lower : string) (context : Context) :
  exists before after,
    hd_error (section_parts section_type section_title title_lower context)
    = Some (before ++ lower section_title ++ after)%string.
Proof.
  destruct section_type; unfold section_parts; cbv zeta;
    try destruct (budget_level context);
    eexists; eexists;
    repeat first [ solve [cbn [app hd_error]; reflexivity]
                 | apply hd_error_append_if
                 | apply hd_error_app ].
Qed.

(** X13. The fallback text always names the section: it contains the
    lower-cased section title. *)
Theorem fallback_names_the_section :
  forall (section_title pdf_path : string) (context : Context),
    occurs_in (lower section_title)
      (_generate_dynamic_fallback section_title pdf_path context)
    = true.
Proof.
  intros section_title pdf_path context.
  unfold _generate_dynamic_fallback. cbv zeta.
  destruct (section_parts_first (section_type_of (lower section_title))
              section_title (lower section_title) context)
    as (before & after & H).
  apply (hd_error_closing_parts context) in H.
  apply (join_hd_prefix " ") in H.
  apply prefix_split in H. destruct H as [r ->].
  apply occurs_in_append_r, occurs_in_append_l, occurs_in_prefix, prefix_append.
Qed.

(** X14. Titles classified as accommodation or transportation get no text of
    their own: their fallback opens with the sentence of the general
    branch. *)
Theorem accommodation_and_transportation_use_general_text :
  forall (section_title pdf_path : string) (context : Context),
    section_type_of (lower section_title) = sec_accommodation
    \/ section_type_of (lower section_title) = sec_transportation ->
    prefix
      ("This section covers " ++ lower section_title
       ++ " with practical information and recommendations.")
      (_generate_dynamic_fallback section_title pdf_path context)
    = true.
Proof.
  intros section_title pdf_path context H.
  unfold _generate_dynamic_fallback. cbv zeta.
  apply join_hd_prefix, hd_error_closing_parts.
  destruct H as [-> | ->]; unfold section_parts; cbv zeta;
    repeat first [ solve [cbn [app hd_error]; reflexivity]
                 | apply hd_error_append_if
                 | apply hd_error_app ].
Qed.

Lemma accommodation_and_transportation_use_general_text_witness :
  section_type_of (lower "Hotels and Lodging") = sec_accommodation
  /\ prefix
       ("This section covers " ++ lower "Hotels and Lodging"
        ++ " with practical information and recommendations.")
       (_generate_dynamic_fallback "Hotels and Lodging" "city.pdf"
          default_context)
     = true.
Proof.
  assert (H : section_type_of (lower "Hotels and Lodging") = sec_accommodation)
    by (vm_compute; reflexivity).
  split; [exact H|].
  apply (accommodation_and_transportation_use_general_text
           "Hotels and Lodging" "city.pdf" default_context).
  left. exact H.
Defined.
Lemma digit_not_underscore (c : ascii) :
  is_digit c = true -> Ascii.eqb c "_" = false.
Proof.
  destruct c as [[|] [|] [|] [|] [|] [|] [|] [|]]; vm_compute;
    intros H; try reflexivity; discriminate H.
Qed.

Lemma digit_not_d (c : ascii) : is_digit c = true -> c <> "d"%char.
Proof. intros H ->. discriminate H. Qed.

Lemma replace_char_append (a b : ascii) (s t : string) :
  replace_char a b (s ++ t) = (replace_char a b s ++ replace_char a b t)%string.
Proof. induction s as [|c s IH]; cbn; [reflexivity|now rewrite IH]. Qed.

Lemma replace_underscore_digits (n : string) :
  forallb_str is_digit n = true -> replace_char "_" " " n = n.
Proof.
  induction n as [|c n IH]; cbn [forallb_str replace_char]; [reflexivity|].
  intros H. apply andb_true_iff in H. destruct H as [Hc Hn].
  now rewrite (digit_not_underscore c Hc), (IH Hn).
Qed.

Lemma no_days_in_weeks (n : string) :
  forallb_str is_digit n = true -> occurs_in "days" (n ++ "_weeks") = false.
Proof.
  induction n as [|c n IH]; cbn [forallb_str]; [reflexivity|].
  intros H. apply andb_true_iff in H. destruct H as [Hc Hn].
  cbn [String.append occurs_in]. rewrite (IH Hn), orb_false_r.
  cbn [prefix]. destruct (ascii_dec "d" c) as [<-|]; [discriminate Hc|reflexivity].
Qed.

Lemma is_number_digits (n : string) :
  is_number n = true -> is_empty n = false /\ forallb_str is_digit n = true.
Proof.
  unfold is_number. intros H. apply andb_true_iff in H.
  destruct H as [H1 H2]. split; [now destruct (is_empty n)|exact H2].
Qed.

Lemma is_empty_append_l (a b : string) :
  is_empty a = false -> is_empty (a ++ b) = false.
Proof. now destruct a. Qed.

(** The text before the closing sentence. *)
Lemma fallback_with_closing (section_title pdf_path : string) (context : Context)
    (closing : string) :
  closing_parts context
    (section_parts (section_type_of (lower section_title)) section_title
       (lower section_title) context)
  = section_parts (section_type_of (lower section_title)) section_title
      (lower section_title) context ++ [closing] ->
  exists body,
    _generate_dynamic_fallback section_title pdf_path context
    = (body ++ " " ++ closing)%string.
Proof.
  intros H. unfold _generate_dynamic_fallback. cbv zeta.
  rewrite H, join_snoc.
  pose proof (section_parts_starts_nonempty (section_type_of (lower section_title))
                section_title (lower section_title) context) as Hne.
  destruct (section_parts _ _ _ _) as [|p ps]; [destruct Hne|].
  now eexists.
Qed.

(** X15. For a trip duration counted in days or in weeks the fallback text
    ends with the matching closing sentence, which spells the duration
    with a space in place of the underscore. *)
Theorem fallback_closing_sentence :
  forall (section_title pdf_path : string) (context : Context) (n : string),
    is_number n = true ->
    (trip_duration context = (n ++ "_days")%string ->
     exists body,
       _generate_dynamic_fallback section_title pdf_path context
       = (body ++ " " ++ "Perfect for planning a " ++ n
          ++ " days itinerary with optimal time management and efficient use of your vacation time.")%string)
    /\ (trip_duration context = (n ++ "_weeks")%string ->
        exists body,
          _generate_dynamic_fallback section_title pdf_path context
          = (body ++ " " ++ "Ideal for extended " ++ n
             ++ " weeks stays that allow for deeper exploration and immersive experiences.")%string).
Proof.
  intros section_title pdf_path context n Hn.
  destruct (is_number_digits n Hn) as [Hne Hd].
  split; intros Ht; apply fallback_with_closing;
    unfold closing_parts; cbv zeta; rewrite Ht;
    rewrite (is_empty_append_l n _ Hne); cbn [negb andb].
  - rewrite (occurs_in_append_l "days" n "_days") by reflexivity.
    rewrite replace_char_append, (replace_underscore_digits n Hd).
    change (replace_char "_" " " "_days") with " days".
    now rewrite append_assoc.
  - rewrite (no_days_in_weeks n Hd).
    rewrite (occurs_in_append_l "weeks" n "_weeks") by reflexivity.
    rewrite replace_char_append, (replace_underscore_digits n Hd).
    change (replace_char "_" " " "_weeks") with " weeks".
    now rewrite append_assoc.
Qed.

Lemma fallback_closing_sentence_witness :
  is_number "3" = true
  /\ trip_duration
       (analyze_persona_job_context "Student" "A trip of 3 days to the coast")
     = "3_days"
  /\ exists body,
       _generate_dynamic_fallback "Beaches" "coast.pdf"
         (analyze_persona_job_context "Student" "A trip of 3 days to the coast")
       = (body ++ " " ++ "Perfect for planning a " ++ "3"
          ++ " days itinerary with optimal time management and efficient use of your vacation time.")%string.
Proof.
  assert (Hn : is_number "3" = true) by reflexivity.
  assert (Ht : trip_duration
                 (analyze_persona_job_context "Student"
                    "A trip of 3 days to the coast")
               = "3_days") by (vm_compute; reflexivity).
  split; [exact Hn|]. split; [exact Ht|].
  exact (proj1 (fallback_closing_sentence "Beaches" "coast.pdf"
                  (analyze_persona_job_context "Student"
                     "A trip of 3 days to the coast") "3" Hn) Ht).
Defined.
(** ** The pipeline from files to output *)

Lemma score_within_bounds (text title : string) (context : Context)
    (document_name : string) (page_num : Z) :
  0 <= calculate_dynamic_relevance text title context document_name page_num
  <= 100.
Proof.
  rewrite calculate_dynamic_relevance_unfold.
  destruct (tokens_of text title) as [|w ws] eqn:E.
  - split; discriminate.
  - rewrite <- E.
    pose proof (final_score_nonneg text title context) as Hf.
    rewrite <- (final_score_sum text title context) in Hf. cbv zeta in Hf.
    destruct (py_min_bounds _ 100.0 Hf) as [H0 H1]; [discriminate|].
    split; [exact H0|].
    eapply Qle_trans; [exact H1|]. discriminate.
Qed.

Lemma extracted_content_nonempty (page_text : string -> Z -> PageOutcome)
    (pdf_path : string) (page_num : Z) (section_title : string)
    (context : Context) :
  extract_dynamic_content page_text pdf_path page_num section_title context
  <> "".
Proof.
  pose proof (fallback_nonempty section_title pdf_path context) as Hf.
  unfold extract_dynamic_content.
  destruct (page_text pdf_path page_num) as [| |text_blocks]; try exact Hf.
  cbv zeta.
  destruct (scan_blocks _ _ _ _ _) as [|b bs]; [exact Hf|].
  destruct (String.length (normalize_content (b :: bs)) <? 100)%nat eqn:E;
    [exact Hf|].
  intros H. rewrite H in E. discriminate E.
Qed.

(** Every ranked section comes from an outline entry of a file whose
    structure was extracted. *)
Lemma ranked_section_origin (path_name : string -> string)
    (analyze_pdf : string -> option StructuredContent)
    (page_text : string -> Z -> PageOutcome) (context : Context)
    (persona_text job_text : string) (pdf_files : list string)
    (s : Ranked.section) :
  In s (analyze_and_rank_sections persona_text job_text
          (process_documents_dynamic path_name analyze_pdf page_text pdf_files
             context)
          context) ->
  exists pdf_path structured_content entry,
    In pdf_path pdf_files
    /\ analyze_pdf pdf_path = Some structured_content
    /\ In entry (get_or (sc_outline structured_content) [])
    /\ s = section_dict (path_name pdf_path)
             (enhance_section page_text pdf_path (path_name pdf_path) context
                entry).
Proof.
  unfold analyze_and_rank_sections. rewrite collect_sections_encounter_order.
  intros H.
  apply (Permutation_in _ (sorted_reverse_perm _ _)) in H.
  apply encounter_order_process in H.
  destruct H as (pdf_path & sc & Hp & Ha & Hs).
  unfold scored_sections in Hs. apply in_map_iff in Hs.
  destruct Hs as (entry & <- & He).
  now exists pdf_path, sc, entry.
Qed.

(** X16. Every section of the ranking has a score between 0 and 100 and a
    non-empty content, and carries the name of an input file whose
    structure extraction did not raise. *)
Theorem ranked_sections_are_well_formed :
  forall (path_name : string -> string)
         (analyze_pdf : string -> option StructuredContent)
         (page_text : string -> Z -> PageOutcome) (context : Context)
         (persona_text job_text : string) (pdf_files : list string),
    Forall
      (fun s =>
         0 <= Ranked.relevance_score s <= 100
         /\ Ranked.dynamic_content s <> ""
         /\ exists pdf_path,
              In pdf_path pdf_files
              /\ extraction_succeeds analyze_pdf pdf_path = true
              /\ Ranked.document_name s = path_name pdf_path)
      (analyze_and_rank_sections persona_text job_text
         (process_documents_dynamic path_name analyze_pdf page_text pdf_files
            context)
         context).
Proof.
  intros. apply Forall_forall. intros s Hs.
  apply ranked_section_origin in Hs.
  destruct Hs as (pdf_path & sc & entry & Hp & Ha & He & ->).
  unfold section_dict, enhance_section. cbv zeta.
  cbn [Enhanced.relevance_score Enhanced.dynamic_content Enhanced.text
       Enhanced.page Enhanced.level get_or Ranked.relevance_score
       Ranked.dynamic_content Ranked.document_name].
  split; [apply score_within_bounds|].
  split; [apply extracted_content_nonempty|].
  exists pdf_path. unfold extraction_succeeds. now rewrite Ha.
Qed.

Lemma kept_document_name (path_name : string -> string)
    (analyze_pdf : string -> option StructuredContent)
    (page_text : string -> Z -> PageOutcome) (context : Context)
    (pdf_path : string) :
  map doc_name (kept_document path_name analyze_pdf page_text context pdf_path)
  = if extraction_succeeds analyze_pdf pdf_path then [path_name pdf_path]
    else [].
Proof.
  unfold kept_document, process_document, extraction_succeeds.
  now destruct (analyze_pdf pdf_path).
Qed.

(** X17. The processed documents are the input files whose structure
    extraction did not raise, in input order, each under the name of its
    file; when no extraction raises, every file is processed. *)
Theorem processed_documents_keep_input_order :
  forall (path_name : string -> string)
         (analyze_pdf : string -> option StructuredContent)
         (page_text : string -> Z -> PageOutcome) (context : Context)
         (pdf_files : list string),
    let processed_documents :=
      process_documents_dynamic path_name analyze_pdf page_text pdf_files
        context in
    map doc_name processed_documents
    = map path_name (filter (extraction_succeeds analyze_pdf) pdf_files)
    /\ (List.length processed_documents <= List.length pdf_files)%nat
    /\ (List.length processed_documents = List.length pdf_files
        <-> forallb (extraction_succeeds analyze_pdf) pdf_files = true).
Proof.
  intros path_name analyze_pdf page_text context pdf_files. cbv zeta.
  rewrite process_documents_flat_map.
  assert (Hnames :
            map doc_name
              (flat_map (kept_document path_name analyze_pdf page_text context)
                 pdf_files)
            = map path_name (filter (extraction_succeeds analyze_pdf) pdf_files)).
  { induction pdf_files as [|p files IH]; [reflexivity|].
    cbn [flat_map filter]. rewrite map_app, IH, kept_document_name.
    now destruct (extraction_succeeds analyze_pdf p). }
  split; [exact Hnames|].
  rewrite <- (length_map doc_name), Hnames, length_map.
  clear Hnames.
  induction pdf_files as [|p files [IH1 IH2]]; [repeat split; trivial|].
  cbn [filter forallb List.length].
  destruct (extraction_succeeds analyze_pdf p); cbn [List.length andb].
  - split; [lia|]. rewrite <- IH2. lia.
  - split; [lia|]. split; [lia|discriminate].
Qed.

Lemma firstn_subset {A : Type} (n : nat) (l : list A) (x : A) :
  In x (firstn n l) -> In x l.
Proof.
  revert l. induction n as [|n IH]; intros l H; [destruct H|].
  destruct l as [|y l]; [destruct H|].
  destruct H as [H|H]; [now left|right; now apply IH].
Qed.

Lemma extracted_sections_of_output (ranked_sections : list Ranked.section)
    (persona_text job_text : string) :
  map Output.document
    (Output.extracted_sections
       (generate_dynamic_output ranked_sections persona_text job_text))
  = map Ranked.document_name (firstn 5 ranked_sections).
Proof.
  unfold generate_dynamic_output. cbn [Output.extracted_sections].
  rewrite (fold_left_pointwise _
             (fun acc p =>
                acc ++ [Output.mkExtracted (Ranked.document_name (snd p))
                          (Ranked.section_title (snd p)) (fst p)
                          (Ranked.page_number (snd p))]))
    by (intros acc [i section]; reflexivity).
  rewrite fold_left_append_map. cbn [app]. rewrite map_map.
  cbn [Output.document].
  rewrite <- (map_snd_enumerate (firstn 5 ranked_sections) 1) at 2.
  now rewrite map_map.
Qed.

Lemma subsection_analysis_of_output (ranked_sections : list Ranked.section)
    (persona_text job_text : string) :
  Output.subsection_analysis
    (generate_dynamic_output ranked_sections persona_text job_text)
  = map (fun s => Output.mkAnalysis (Ranked.document_name s)
                    (Ranked.dynamic_content s) (Ranked.page_number s))
      (firstn 5 ranked_sections).
Proof.
  unfold generate_dynamic_output. cbn [Output.subsection_analysis].
  now rewrite fold_left_append_map.
Qed.

(** X18. In the two arrays that [generate_dynamic_output] builds from the
    ranking of the processed documents, every extracted section and every
    analysis item names an input file whose structure extraction did not
    raise, and no refined text is empty. *)
Theorem output_arrays_come_from_extracted_files :
  forall (path_name : string -> string)
         (analyze_pdf : string -> option StructuredContent)
         (page_text : string -> Z -> PageOutcome) (context : Context)
         (persona_text job_text : string) (pdf_files : list string),
    let out :=
      generate_dynamic_output
        (analyze_and_rank_sections persona_text job_text
           (process_documents_dynamic path_name analyze_pdf page_text pdf_files
              context)
           context)
        persona_text job_text in
    Forall
      (fun document =>
         exists pdf_path,
           In pdf_path pdf_files
           /\ extraction_succeeds analyze_pdf pdf_path = true
           /\ document = path_name pdf_path)
      (map Output.document (Output.extracted_sections out))
    /\ Forall
         (fun item =>
            Output.refined_text item <> ""
            /\ exists pdf_path,
                 In pdf_path pdf_files
                 /\ extraction_succeeds analyze_pdf pdf_path = true
                 /\ Output.a_document item = path_name pdf_path)
         (Output.subsection_analysis out).
Proof.
  intros path_name analyze_pdf page_text context persona_text job_text
    pdf_files out.
  unfold out. split.
  - rewrite extracted_sections_of_output.
    apply Forall_forall. intros document Hd.
    apply in_map_iff in Hd. destruct Hd as (s & <- & Hs).
    apply firstn_subset, ranked_section_origin in Hs.
    destruct Hs as (pdf_path & sc & entry & Hp & Ha & He & ->).
    exists pdf_path. unfold extraction_succeeds. rewrite Ha. now repeat split.
  - rewrite subsection_analysis_of_output.
    apply Forall_forall. intros item Hi.
    apply in_map_iff in Hi. destruct Hi as (s & <- & Hs).
    apply firstn_subset, ranked_section_origin in Hs.
    destruct Hs as (pdf_path & sc & entry & Hp & Ha & He & ->).
    cbn [Output.refined_text Output.a_document].
    unfold section_dict, enhance_section. cbv zeta.
    cbn [Enhanced.dynamic_content Enhanced.text get_or Ranked.dynamic_content
         Ranked.document_name].
    split; [apply extracted_content_nonempty|].
    exists pdf_path. unfold extraction_succeeds. rewrite Ha. now repeat split.
Qed.

(** X19. The first ranked section has the highest score of all sections of
    all documents; the ranking is empty only when there is no section. *)
Theorem top_ranked_section_has_highest_score :
  forall (persona_text job_text : string)
         (processed_documents : list ProcessedDocument) (context : Context),
    match analyze_and_rank_sections persona_text job_text processed_documents
            context with
    | [] => encounter_order processed_documents = []
    | top :: _ =>
        Forall
          (fun s => Ranked.relevance_score s <= Ranked.relevance_score top)
          (encounter_order processed_documents)
    end.
Proof.
  intros persona_text job_text docs context.
  unfold analyze_and_rank_sections. rewrite collect_sections_encounter_order.
  pose proof (sorted_reverse_perm Ranked.relevance_score (encounter_order docs))
    as Hperm.
  pose proof (sorted_reverse_sorted Ranked.relevance_score (encounter_order docs))
    as Hsort.
  destruct (sorted_reverse Ranked.relevance_score (encounter_order docs))
    as [|top rest].
  - now apply Permutation_nil.
  - apply Forall_forall. intros s Hs.
    apply (Permutation_in _ (Permutation_sym Hperm)) in Hs.
    inversion Hsort as [|? ? _ Hall]; subst.
    destruct Hs as [<-|Hs]; [apply Qle_refl|].
    rewrite Forall_forall in Hall. exact (Hall s Hs).
Qed.
(** ** How much the context can add *)

Lemma bonus_if_le (applies : bool) (amount : Q) :
  0 <= amount -> bonus_if applies amount <= amount.
Proof. intros H. unfold bonus_if. destruct applies; [apply Qle_refl|exact H]. Qed.

(** The preferences found by the analyzer earn at most four bonuses. *)
Lemma analyzer_preferences_bonus (persona_text job_text full_text : string) :
  Qsum
    (map (fun preference =>
            bonus_if (any_in (preference_cues preference) full_text) 0.2)
       (activity_preferences
          (analyze_persona_job_context persona_text job_text)))
  <= 0.8.
Proof.
  rewrite activity_preferences_analyze.
  unfold activity_types. cbn [filter snd].
  repeat match goal with
         | |- context [if any_in ?l ?t then _ else _] => destruct (any_in l t)
         end;
    cbn [map fst preference_cues];
    change (any_in [] full_text) with false;
    unfold bonus_if, Qsum; cbn [fold_right];
    repeat match goal with
           | |- context [if any_in ?l ?t then _ else _] => destruct (any_in l t)
           end;
    apply Qle_bool_iff; vm_compute; reflexivity.
Qed.

Lemma analyzer_multiplier_at_most_3 (persona_text job_text full_text : string) :
  spec_context_multiplier full_text
    (analyze_persona_job_context persona_text job_text)
  <= 3.
Proof.
  unfold spec_context_multiplier.
  pose proof (analyzer_preferences_bonus persona_text job_text full_text) as Hp.
  revert Hp.
  generalize (analyze_persona_job_context persona_text job_text) as context.
  intros context.
  generalize (Qsum
                (map (fun preference =>
                        bonus_if (any_in (preference_cues preference) full_text)
                          0.2)
                   (activity_preferences context))) as rest.
  intros rest Hrest.
  unfold is_persona, is_group, is_age, is_budget, bonus_if.
  destruct (persona_type context), (group_type context), (age_group context),
    (budget_level context); cbn [andb];
    repeat match goal with
           | |- context [if any_in ?l ?t then _ else _] => destruct (any_in l t)
           end; lra.
Qed.

(** X20. For a context produced by the analyzer the score is at most 3.1
    times the score in the default context: all context bonuses together
    add at most 2.0 to the multiplier, and the margin above 3 covers the
    rounding of that sum in floating point. *)
Theorem analyzed_context_bounds_score :
  forall (persona_text job_text text title document_name : string)
         (page_num : Z),
    calculate_dynamic_relevance text title
      (analyze_persona_job_context persona_text job_text) document_name page_num
    <= 3.1 * calculate_dynamic_relevance text title default_context
               document_name page_num.
Proof.
  intros persona_text job_text text title document_name page_num.
  rewrite !calculate_dynamic_relevance_unfold.
  destruct (tokens_of text title) as [|w ws] eqn:E; [discriminate|].
  rewrite <- E.
  change (context_multiplier_of (full_text_of text title) default_context)
    with 1.0.
  set (context := analyze_persona_job_context persona_text job_text).
  pose proof (final_score_sum text title context) as Hsum. cbv zeta in Hsum.
  pose proof (spec_base_score_nonneg (tokens_of text title)) as Hb.
  pose proof (spec_pattern_bonus_nonneg (full_text_of text title)) as Hq.
  pose proof (spec_context_multiplier_ge_1 (full_text_of text title) context)
    as Hm1.
  pose proof (analyzer_multiplier_at_most_3 persona_text job_text
                (full_text_of text title)) as Hm3.
  fold context in Hm3.
  rewrite (py_min_compat _ _ 100.0 Hsum).
  assert (Hone : (inject_Z (keyword_score_of (tokens_of text title))
                  / inject_Z (Z.of_nat (List.length (tokens_of text title))) * 10
                  + pattern_bonus_of (full_text_of text title)) * 1.0
                 == spec_base_score (tokens_of text title)
                    + spec_pattern_bonus (full_text_of text title)).
  { rewrite keyword_score_of_sum, pattern_bonus_of_sum.
    unfold spec_base_score. ring. }
  rewrite (py_min_compat _ _ 100.0 Hone).
  revert Hb Hq Hm1 Hm3.
  generalize (spec_base_score (tokens_of text title)) as b.
  generalize (spec_pattern_bonus (full_text_of text title)) as q.
  generalize (spec_context_multiplier (full_text_of text title) context) as m.
  intros m q b Hb Hq Hm1 Hm3.
  assert (H1 : 0 <= (b + q) * (m - 1)) by (apply Qmult_le_0_compat; lra).
  assert (H3 : 0 <= (b + q) * (3 - m)) by (apply Qmult_le_0_compat; lra).
  assert (Hlo : b + q <= (b + q) * m).
  { setoid_replace ((b + q) * m) with ((b + q) + (b + q) * (m - 1)) by ring.
    lra. }
  assert (Hhi : (b + q) * m <= 3.1 * (b + q)).
  { setoid_replace (3.1 * (b + q))
      with ((b + q) * m + (b + q) * (3 - m) + 0.1 * (b + q)) by ring.
    lra. }
  revert Hlo Hhi. generalize ((b + q) * m) as y. intros y Hlo Hhi.
  unfold py_min.
  destruct (Qle_bool y 100.0) eqn:Ey, (Qle_bool (b + q) 100.0) eqn:Ex.
  - exact Hhi.
  - assert (Hx : ~ b + q <= 100.0)
      by (intros Hx; apply Qle_bool_iff in Hx; congruence).
    apply Qle_bool_iff in Ey. lra.
  - assert (Hy : ~ y <= 100.0)
      by (intros Hy; apply Qle_bool_iff in Hy; congruence).
    lra.
  - lra.
Qed.

(** ** Nothing is lost in the ranking *)

(** X21. The ranking holds each outline entry of each document whose
    structure was extracted exactly once: it is a rearrangement of the
    sections of those documents listed file by file. *)
Theorem ranking_holds_each_entry_once :
  forall (path_name : string -> string)
         (analyze_pdf : string -> option StructuredContent)
         (page_text : string -> Z -> PageOutcome) (context : Context)
         (persona_text job_text : string) (pdf_files : list string),
    Permutation
      (analyze_and_rank_sections persona_text job_text
         (process_documents_dynamic path_name analyze_pdf page_text pdf_files
            context)
         context)
      (flat_map
         (fun pdf_path =>
            match analyze_pdf pdf_path with
            | Some structured_content =>
                scored_sections path_name page_text context pdf_path
                  structured_content
            | None => []
            end)
         pdf_files).
Proof.
  intros. unfold analyze_and_rank_sections.
  rewrite collect_sections_encounter_order, sorted_reverse_perm.
  rewrite process_documents_flat_map, encounter_order_flat_map.
  erewrite flat_map_ext; [reflexivity|].
  intros pdf_path. apply kept_document_sections.
Qed.
(** ** The tokens of the scorer *)

Lemma lower_letter_is_lower_case (c : ascii) :
  is_ascii_letter (lower_char c) = true -> is_ascii_lower (lower_char c) = true.
Proof.
  destruct c as [[|] [|] [|] [|] [|] [|] [|] [|]]; vm_compute;
    intros H; try reflexivity; discriminate H.
Qed.

Lemma forallb_str_prefix (P : ascii -> bool) (w s : string) :
  prefix w s = true -> forallb_str P s = true -> forallb_str P w = true.
Proof.
  intros Hp Hs. apply prefix_split in Hp. destruct Hp as [r ->].
  rewrite forallb_str_append in Hs. apply andb_true_iff in Hs. apply Hs.
Qed.

Lemma forallb_str_lower (s : string) :
  forallb_str (fun c => negb (is_ascii_letter c) || is_ascii_lower c) (lower s)
  = true.
Proof.
  induction s as [|c s IH]; cbn [lower forallb_str]; [reflexivity|].
  rewrite IH, andb_true_r.
  destruct (is_ascii_letter (lower_char c)) eqn:E; [|reflexivity].
  now rewrite (lower_letter_is_lower_case c E).
Qed.

(** X22. Every token the scorer weighs is a word of at least three
    lower-case ASCII letters that occurs in the lower-cased text. *)
Theorem tokens_are_lower_case_words :
  forall text title : string,
    Forall
      (fun token =>
         (3 <= String.length token)%nat
         /\ forallb_str is_ascii_lower token = true
         /\ occurs_in token (full_text_of text title) = true)
      (tokens_of text title).
Proof.
  intros text title. apply Forall_forall. intros token Hin.
  unfold tokens_of, Re.findall_words in Hin.
  destruct (findall_from_In (Re.match_bounded_run is_ascii_letter 3)
              (fun post => forallb_str is_ascii_letter token = true
                           /\ (3 <= String.length token)%nat
                           /\ prefix token post = true) token)
    with (s := full_text_of text title) (prev := @None ascii) (skip := 0%nat)
    as (pre & post & Hsplit & Hall & Hlen & Hp).
  - intros prev s Hm. now apply match_bounded_run_spec in Hm.
  - exact Hin.
  - split; [exact Hlen|]. split.
    + pose proof (forallb_str_lower (title ++ " " ++ text)) as Hlow.
      fold (full_text_of text title) in Hlow.
      rewrite Hsplit, forallb_str_append in Hlow.
      apply andb_true_iff in Hlow. destruct Hlow as [_ Hpost].
      pose proof (forallb_str_prefix _ _ _ Hp Hpost) as Htok.
      clear - Hall Htok.
      induction token as [|c token IH]; [reflexivity|].
      cbn [forallb_str] in *.
      apply andb_true_iff in Hall. destruct Hall as [Hc Hall].
      apply andb_true_iff in Htok. destruct Htok as [Hc' Htok].
      rewrite Hc in Hc'. cbn [negb orb] in Hc'.
      now rewrite Hc', IH.
    + rewrite Hsplit. now apply occurs_in_append_l, occurs_in_prefix.
Qed.
